(** * The polar-plant EC dashboard (main.py): loaders and aggregation

    A shallow embedding of the data pipeline of [main.py]: the file locator
    ([normalize], [find_file]), the two cached loaders
    ([load_environment_data], [load_growth_data]), the stop gate of the
    script, and the summaries computed in the tabs (the environment means
    [avg_env], the growth summary [ec_summary] and its best row
    [best_row]).

    Conventions of the model.
    - A Python [str] is the list of its Unicode code points.
    - A Python [dict] is an association list in insertion order.
    - A pandas column is a list of cells; a finite float is read as the
      rational it denotes, [NaN] is the missing value.  Rounding and
      overflow of float arithmetic are not modelled.
    - The data directory is given by its entries in iteration order and by
      what the pandas readers make of each file.
    - Library functions whose code is not part of the program
      ([unicodedata.normalize], [pandas.to_datetime]) are operations of a
      class; the theorems hold for every implementation of them. *)

From Stdlib Require Import List NArith ZArith QArith Bool Lia Ascii String.
Import ListNotations.

Local Open Scope list_scope.
Local Close Scope Q_scope.
Local Close Scope string_scope.

Set Default Proof Using "Type".

(** ** Python strings *)

Definition str : Type := list N.

Module Str.

(** [a == b] *)
Fixpoint eqb (a b : str) : bool :=
  match a, b with
  | [], [] => true
  | x :: a', y :: b' => (x =? y)%N && eqb a' b'
  | _, _ => false
  end.

(** [s.startswith(p)] *)
Fixpoint startswith (p s : str) : bool :=
  match p, s with
  | [], _ => true
  | x :: p', y :: s' => (x =? y)%N && startswith p' s'
  | _ :: _, [] => false
  end.

(** [kw in s]: [kw] occurs in [s] as a contiguous run of code points. *)
Fixpoint contains (kw s : str) : bool :=
  startswith kw s
  || match s with
     | [] => false
     | _ :: s' => contains kw s'
     end.

(** [s.rfind(c)], [None] standing for -1. *)
Fixpoint rfind (c : N) (s : str) : option nat :=
  match s with
  | [] => None
  | x :: s' =>
      match rfind c s' with
      | Some i => Some (S i)
      | None => if (x =? c)%N then Some 0%nat else None
      end
  end.

Definition substring (kw s : str) : Prop :=
  exists l r, s = l ++ kw ++ r.

End Str.

(** ** pathlib *)

Module Path.

(** [PurePath.suffix] of a final path component (CPython up to 3.12):
    [i = name.rfind('.')]; the result is [name[i:]] when
    [0 < i < len(name) - 1] and the empty string otherwise. *)
Definition suffix (name : str) : str :=
  match Str.rfind 46 name with
  | Some i =>
      if ((0 <? i) && (i <? List.length name - 1))%nat then skipn i name else []
  | None => []
  end.

End Path.

(** ** unicodedata *)

(** [NFC text] is [unicodedata.normalize("NFC", text)]. *)
Class Unicode : Type := { NFC : str -> str }.

(** The Hangul part of normalization form C (The Unicode Standard, section
    3.12, conjoining jamo behaviour): canonical decomposition of the
    precomposed syllables followed by their algorithmic composition.  Every
    other code point is left as it is, so on a text made of Hangul and of
    characters that take no part in any decomposition or composition
    (ASCII, for one) this is [unicodedata.normalize("NFC", text)]. *)
Module Hangul.
Local Open Scope N_scope.

Definition SBase : N := 0xAC00.
Definition LBase : N := 0x1100.
Definition VBase : N := 0x1161.
Definition TBase : N := 0x11A7.
Definition LCount : N := 19.
Definition VCount : N := 21.
Definition TCount : N := 28.
Definition NCount : N := 588.
Definition SCount : N := 11172.

Definition is_syllable (c : N) : bool := (SBase <=? c) && (c <? SBase + SCount).
Definition is_L (c : N) : bool := (LBase <=? c) && (c <? LBase + LCount).
Definition is_V (c : N) : bool := (VBase <=? c) && (c <? VBase + VCount).
Definition is_T (c : N) : bool := (TBase <? c) && (c <? TBase + TCount).

Definition decompose_char (c : N) : str :=
  if is_syllable c then
    let SIndex := c - SBase in
    let L := LBase + SIndex / NCount in
    let V := VBase + (SIndex mod NCount) / TCount in
    let T := TBase + SIndex mod TCount in
    if T =? TBase then [L; V] else [L; V; T]
  else [c].

Definition decompose (s : str) : str := flat_map decompose_char s.

(** The primary composite of [last] and [ch], when there is one: a leading
    consonant and a vowel give an LV syllable, an LV syllable and a
    trailing consonant give an LVT syllable. *)
Definition combine (last ch : N) : option N :=
  if is_L last && is_V ch then
    Some (SBase + ((last - LBase) * VCount + (ch - VBase)) * TCount)
  else if is_syllable last && ((last - SBase) mod TCount =? 0) && is_T ch then
    Some (last + (ch - TBase))
  else None.

Fixpoint compose_from (last : N) (s : str) : str :=
  match s with
  | [] => [last]
  | ch :: rest =>
      match combine last ch with
      | Some c => compose_from c rest
      | None => last :: compose_from ch rest
      end
  end.

Definition compose (s : str) : str :=
  match s with
  | [] => []
  | c :: rest => compose_from c rest
  end.

Definition nfc (s : str) : str := compose (decompose s).

Definition unicode : Unicode := {| NFC := nfc |}.

End Hangul.

(** ** The file locator (main.py, lines 32-40) *)

Section Locator.
Context {U : Unicode}.

Definition normalize (text : str) : str := NFC text.

(** [data_dir] is [data_dir.iterdir()]: the names of the entries of the
    directory, in iteration order.  The result names the entry found. *)
Fixpoint find_file (data_dir : list str) (keyword suffix : str) : option str :=
  match data_dir with
  | [] => None
  | f :: rest =>
      if Str.eqb (Path.suffix f) suffix then
        if Str.contains keyword (normalize f) then Some f
        else find_file rest keyword suffix
      else find_file rest keyword suffix
  end.

End Locator.

(** ** Results, faults and the page *)

(** The exceptions that the modelled statements raise. *)
Inductive exn : Type :=
| ParserError        (* a pandas reader could not read or parse the file *)
| DateParseError     (* pd.to_datetime met a value that is no date-time *)
| KeyError (key : str)  (* df[key] or d[key] on an absent key *)
| LocKeyError (label : nat)  (* df.loc[label] on a label outside the index *)
| TypeError          (* Series.mean on a column that holds a non-number *)
| ArgmaxOfEmpty      (* Series.idxmax on a Series without elements: pandas
                        refuses the arg-max of an empty sequence *)
| ArgmaxAllNaN.      (* Series.idxmax found no valid value: raised by idxmax
                        itself or, where idxmax still answers NaN, by the
                        .loc lookup of that label *)

Definition result (A : Type) : Type := (exn + A)%type.

Definition rbind {A B : Type} (c : result A) (k : A -> result B) : result B :=
  match c with
  | inl e => inl e
  | inr a => k a
  end.

(** A computation of the script: the messages it shows with [st.error], in
    order, and either the exception that ended it or its value. *)
Definition St (A : Type) : Type := (list str * result A)%type.

Definition ret {A : Type} (a : A) : St A := ([], inr a).

Definition lift {A : Type} (r : result A) : St A := ([], r).

Definition st_error (msg : str) : St unit := ([msg], inr tt).

Definition bind {A B : Type} (c : St A) (k : A -> St B) : St B :=
  match c with
  | (shown, inl e) => (shown, inl e)
  | (shown, inr a) => let (shown', r) := k a in (shown ++ shown', r)
  end.

Declare Scope py_scope.
Delimit Scope py_scope with py.
Notation "x <- c ;; k" := (bind c (fun x => k))
  (at level 61, c at next level, right associativity) : py_scope.
Notation "c ;; k" := (bind c (fun _ => k))
  (at level 61, right associativity) : py_scope.
Notation "x <-? c ;; k" := (rbind c (fun x => k))
  (at level 61, c at next level, right associativity) : py_scope.
Local Open Scope py_scope.

(** ** Python dictionaries, in insertion order *)

Module Dict.

Definition t (V : Type) : Type := list (str * V).

(** [d.get(k)] *)
Fixpoint get {V : Type} (d : t V) (k : str) : option V :=
  match d with
  | [] => None
  | (k', v) :: d' => if Str.eqb k' k then Some v else get d' k
  end.

(** [d[k]] *)
Definition getitem {V : Type} (d : t V) (k : str) : result V :=
  match get d k with
  | Some v => inr v
  | None => inl (KeyError k)
  end.

(** [d[k] = v]: a key already present keeps its place. *)
Fixpoint set {V : Type} (d : t V) (k : str) (v : V) : t V :=
  match d with
  | [] => [(k, v)]
  | (k', v') :: d' =>
      if Str.eqb k' k then (k', v) :: d' else (k', v') :: set d' k v
  end.

Definition keys {V : Type} (d : t V) : list str := map fst d.

(** [not d] *)
Definition is_empty {V : Type} (d : t V) : bool :=
  match d with
  | [] => true
  | _ :: _ => false
  end.

End Dict.

(** ** pandas *)

(** A float64 value: [NaN], or the rational a finite float denotes. *)
Inductive float : Type :=
| NaN
| Num (q : Q).

Inductive cell : Type :=
| Flt (x : float)
| Text (s : str)
| Timestamp (ns : Z).

Definition Series : Type := list cell.

(** A table: its number of rows and its columns, in order, by label. *)
Record DataFrame : Type := {
  nrows : nat;
  columns : Dict.t Series
}.

(** [len(df)] *)
Definition len (df : DataFrame) : nat := nrows df.

(** [df[key]] *)
Definition getitem (df : DataFrame) (key : str) : result Series :=
  Dict.getitem (columns df) key.

(** [df[key] = value] *)
Definition setitem (df : DataFrame) (key : str) (value : Series) : DataFrame :=
  {| nrows := nrows df; columns := Dict.set (columns df) key value |}.

(** One pass over a column: the sum and the number of its valid values.
    A cell that is no number makes the reduction fail. *)
Fixpoint nansum_count (s : Series) (sum : Q) (count : nat) : result (Q * nat) :=
  match s with
  | [] => inr (sum, count)
  | Flt NaN :: s' => nansum_count s' sum count
  | Flt (Num q) :: s' => nansum_count s' (sum + q)%Q (S count)
  | _ :: _ => inl TypeError
  end.

(** [s.mean()], with the default [skipna=True]: the mean of the valid
    values, [NaN] when there is none. *)
Definition mean (s : Series) : result float :=
  r <-? nansum_count s 0%Q 0 ;;
  match r with
  | (_, O) => inr NaN
  | (sum, count) => inr (Num (sum / inject_Z (Z.of_nat count))%Q)
  end.

(** The running maximum of [nanargmax]: position and value of the first
    greatest valid value met so far. *)
Fixpoint nanargmax (best : option (nat * Q)) (i : nat) (xs : list float)
  : option (nat * Q) :=
  match xs with
  | [] => best
  | NaN :: xs' => nanargmax best (S i) xs'
  | Num q :: xs' =>
      match best with
      | Some (_, b) =>
          if Qle_bool q b then nanargmax best (S i) xs'
          else nanargmax (Some (i, q)) (S i) xs'
      | None => nanargmax (Some (i, q)) (S i) xs'
      end
  end.

(** [s.idxmax()] on a Series with the default index 0, 1, ...: the label of
    the first occurrence of the maximum, missing values skipped. *)
Definition idxmax (xs : list float) : result nat :=
  match xs with
  | [] => inl ArgmaxOfEmpty
  | _ :: _ =>
      match nanargmax None 0 xs with
      | Some (i, _) => inr i
      | None => inl ArgmaxAllNaN
      end
  end.

(** [pandas.to_datetime] on a column. *)
Class Pandas : Type := { to_datetime : Series -> result Series }.

(** ** The data directory *)

(** What the script sees of [Path("data")]: the names of its entries in the
    order [iterdir] yields them, and what pandas reads from each entry. *)
Record FileSystem : Type := {
  iterdir : list str;
  (** [pd.read_csv(data_dir / name)] *)
  read_csv : str -> result DataFrame;
  (** [pd.ExcelFile(data_dir / name).sheet_names] *)
  sheet_names : str -> result (list str);
  (** [pd.read_excel(data_dir / name, sheet_name=sheet)] *)
  read_excel : str -> str -> result DataFrame
}.

(** ** Text constants of the script *)

(** An ASCII literal as a Python string. *)
Definition py (s : string) : str := map N_of_ascii (list_ascii_of_string s).

(** The four sites: 송도고, 하늘고, 아라고, 동산고 (as written in the script,
    precomposed syllables). *)
Definition songdo : str := [0xC1A1; 0xB3C4; 0xACE0]%N.
Definition haneul : str := [0xD558; 0xB298; 0xACE0]%N.
Definition ara : str := [0xC544; 0xB77C; 0xACE0]%N.
Definition dongsan : str := [0xB3D9; 0xC0B0; 0xACE0]%N.

(** " 환경 데이터 파일을 찾을 수 없습니다." *)
Definition msg_env_not_found : str :=
  [32; 54872; 44221; 32; 45936; 51060; 53552; 32; 54028; 51068; 51012; 32;
   52286; 51012; 32; 49688; 32; 50630; 49845; 45768; 45796; 46]%N.

(** "생육 결과 XLSX 파일을 찾을 수 없습니다." *)
Definition msg_xlsx_not_found : str :=
  [49373; 50977; 32; 44208; 44284; 32; 88; 76; 83; 88; 32; 54028; 51068;
   51012; 32; 52286; 51012; 32; 49688; 32; 50630; 49845; 45768; 45796; 46]%N.

(** "전체" *)
Definition option_all : str := [51204; 52404]%N.

(** "생중량(g)" *)
Definition col_fresh_weight : str := [49373; 51473; 47049; 40; 103; 41]%N.

(** ** The loaders (main.py, lines 45-96) *)

Section Loaders.
Context {U : Unicode} {P : Pandas}.
Variable fs : FileSystem.

Definition school_map : Dict.t str :=
  [(songdo, songdo); (haneul, haneul); (ara, ara); (dongsan, dongsan)].

(** The body of the [for school, key in school_map.items()] loop, over the
    items still to visit. *)
Fixpoint load_environment_loop (items : list (str * str))
    (env_data : Dict.t DataFrame) : St (Dict.t DataFrame) :=
  match items with
  | [] => ret env_data
  | (school, key) :: rest =>
      match find_file (iterdir fs) key (py ".csv") with
      | None =>
          st_error (school ++ msg_env_not_found) ;;
          load_environment_loop rest env_data
      | Some file_path =>
          df <- lift (read_csv fs file_path) ;;
          time <- lift (getitem df (py "time")) ;;
          time' <- lift (to_datetime time) ;;
          load_environment_loop rest
            (Dict.set env_data school (setitem df (py "time") time'))
      end
  end.

Definition load_environment_data : St (Dict.t DataFrame) :=
  load_environment_loop school_map [].

(** The [for f in data_dir.iterdir()] loop with its [break]. *)
Fixpoint first_xlsx (entries : list str) : option str :=
  match entries with
  | [] => None
  | f :: rest =>
      if Str.eqb (Path.suffix f) (py ".xlsx") then Some f else first_xlsx rest
  end.

(** The [for sheet in xls.sheet_names] loop. *)
Fixpoint read_sheets (xlsx_file : str) (sheets : list str)
    (growth_data : Dict.t DataFrame) : St (Dict.t DataFrame) :=
  match sheets with
  | [] => ret growth_data
  | sheet :: rest =>
      df <- lift (read_excel fs xlsx_file sheet) ;;
      read_sheets xlsx_file rest (Dict.set growth_data sheet df)
  end.

Definition load_growth_data : St (Dict.t DataFrame) :=
  match first_xlsx (iterdir fs) with
  | None =>
      st_error msg_xlsx_not_found ;;
      ret []
  | Some xlsx_file =>
      sheets <- lift (sheet_names fs xlsx_file) ;;
      read_sheets xlsx_file sheets []
  end.

End Loaders.

(** [if not env_data or not growth_data: st.stop()] (lines 95-96). *)
Definition stops (env_data growth_data : Dict.t DataFrame) : bool :=
  Dict.is_empty env_data || Dict.is_empty growth_data.

(** How the start of the script ends: halted by [st.stop()], or going on to
    the tabs with both mappings. *)
Inductive startup : Type :=
| Stopped
| Loaded (env_data growth_data : Dict.t DataFrame).

Definition start {U : Unicode} {P : Pandas} (fs : FileSystem) : St startup :=
  env_data <- load_environment_data fs ;;
  growth_data <- load_growth_data fs ;;
  if stops env_data growth_data then ret Stopped
  else ret (Loaded env_data growth_data).

(** ** The summaries of the tabs *)

Definition ec_target : Dict.t Q :=
  [(songdo, 1%Q); (haneul, 2%Q); (ara, 4%Q); (dongsan, 8%Q)].

(** [list(env_data.keys()) if school_option == "전체" else [school_option]] *)
Definition selected_schools (env_data : Dict.t DataFrame) (school_option : str)
  : list str :=
  if Str.eqb school_option option_all then Dict.keys env_data
  else [school_option].

(** A row of [avg_env]: 학교, 온도, 습도, pH, EC. *)
Record EnvRow : Type := {
  env_school : str;
  env_temperature : float;
  env_humidity : float;
  env_ph : float;
  env_ec : float
}.

(** Lines 174-183. *)
Fixpoint avg_env (env_data : Dict.t DataFrame) (selected : list str)
  : result (list EnvRow) :=
  match selected with
  | [] => inr []
  | school :: rest =>
      df <-? Dict.getitem env_data school ;;
      temperature <-? (s <-? getitem df (py "temperature") ;; mean s) ;;
      humidity <-? (s <-? getitem df (py "humidity") ;; mean s) ;;
      ph <-? (s <-? getitem df (py "ph") ;; mean s) ;;
      ec <-? (s <-? getitem df (py "ec") ;; mean s) ;;
      rows <-? avg_env env_data rest ;;
      inr ({| env_school := school; env_temperature := temperature;
              env_humidity := humidity; env_ph := ph; env_ec := ec |} :: rows)
  end.

(** A row of [ec_summary]: 학교, EC, 평균 생중량, 개체수. *)
Record GrowthRow : Type := {
  g_school : str;
  g_ec : option Q;
  g_mean_weight : float;
  g_count : nat
}.

(** Lines 267-274, over [growth_data.items()]. *)
Fixpoint ec_summary (items : list (str * DataFrame)) : result (list GrowthRow) :=
  match items with
  | [] => inr []
  | (school, df) :: rest =>
      weight <-? (s <-? getitem df col_fresh_weight ;; mean s) ;;
      rows <-? ec_summary rest ;;
      inr ({| g_school := school; g_ec := Dict.get ec_target school;
              g_mean_weight := weight; g_count := len df |} :: rows)
  end.

(** [ec_df.loc[label]] on the default index. *)
Definition loc {A : Type} (rows : list A) (label : nat) : result A :=
  match nth_error rows label with
  | Some row => inr row
  | None => inl (LocKeyError label)
  end.

(** Line 281: [ec_df.loc[ec_df["평균 생중량"].idxmax()]]. *)
Definition best_row (ec_df : list GrowthRow) : result GrowthRow :=
  label <-? idxmax (map g_mean_weight ec_df) ;;
  loc ec_df label.

(** ** Vocabulary of the statements *)

(** An entry matches a keyword and a suffix: its extension is the suffix
    and the keyword occurs in the NFC form of its name. *)
Definition matches {U : Unicode} (keyword suffix f : str) : Prop :=
  Path.suffix f = suffix /\ Str.substring keyword (NFC f).


(** 송도고 written with conjoining jamo (its canonical decomposition). *)
Definition songdo_nfd : str :=
  [0x1109; 0x1169; 0x11BC; 0x1103; 0x1169; 0x1100; 0x1169]%N.



(** [xs] has its first greatest valid value [w] at position [i]: no valid
    value of [xs] is greater, and every valid value before [i] is smaller. *)
Definition first_maximum (xs : list float) (i : nat) (w : Q) : Prop :=
  nth_error xs i = Some (Num w) /\
  (forall j w', nth_error xs j = Some (Num w') -> (w' <= w)%Q) /\
  (forall j w', (j < i)%nat -> nth_error xs j = Some (Num w') -> (w' < w)%Q).

(** What [nanargmax] knows of the values it has passed. *)
Definition argmax_state (pre : list float) (best : option (nat * Q)) : Prop :=
  match best with
  | Some (i, w) => first_maximum pre i w
  | None => forall j x, nth_error pre j = Some x -> x = NaN
  end.

(** The summaries A 3.2, B 5.1, C 5.1 (sites without a target EC, one
    plant each). *)
Definition summary_A : GrowthRow :=
  {| g_school := py "A"; g_ec := None; g_mean_weight := Num (32 # 10);
     g_count := 1 |}.
Definition summary_B : GrowthRow :=
  {| g_school := py "B"; g_ec := None; g_mean_weight := Num (51 # 10);
     g_count := 1 |}.
Definition summary_C : GrowthRow :=
  {| g_school := py "C"; g_ec := None; g_mean_weight := Num (51 # 10);
     g_count := 1 |}.

(** A workbook with the sheets A (one plant of 3.2 g), B (two plants of
    5.0 g and 5.2 g) and C (one plant of 5.1 g): B and C have the same mean
    fresh weight. *)
Definition growth_tie : Dict.t DataFrame :=
  [(py "A", {| nrows := 1;
               columns := [(col_fresh_weight, [Flt (Num (32 # 10))])] |});
   (py "B", {| nrows := 2;
               columns := [(col_fresh_weight,
                            [Flt (Num (50 # 10)); Flt (Num (52 # 10))])] |});
   (py "C", {| nrows := 1;
               columns := [(col_fresh_weight, [Flt (Num (51 # 10))])] |})].

(** A workbook with the single sheet 송도고: two plants, the fresh weight
    of neither recorded. *)
Definition growth_unweighed : Dict.t DataFrame :=
  [(songdo, {| nrows := 2;
               columns := [(col_fresh_weight, [Flt NaN; Flt NaN])] |})].

(** The valid values of a column, in order. *)
Fixpoint valid (s : Series) : list Q :=
  match s with
  | [] => []
  | Flt (Num q) :: s' => q :: valid s'
  | _ :: s' => valid s'
  end.

(** A numeric column: every cell is a float (a number or NaN). *)
Definition numeric (s : Series) : Prop :=
  forall c, In c s -> exists x, c = Flt x.

(** The arithmetic mean, computed on its own: the sum divided by the
    number of values. *)
Definition arith_mean (xs : list Q) : Q :=
  (fold_right Qplus 0 xs / inject_Z (Z.of_nat (List.length xs)))%Q.

(** [m] is the mean of column [s]: the arithmetic mean of its valid values,
    NaN when it has none. *)
Definition is_mean (s : Series) (m : float) : Prop :=
  match valid s with
  | [] => m = NaN
  | _ :: _ => exists q, m = Num q /\ (q == arith_mean (valid s))%Q
  end.




(** Two records of a site: 21.5 and 22.5 degrees, and so on. *)
Definition env_two_records : DataFrame :=
  {| nrows := 2;
     columns :=
       [(py "time", [Timestamp 0; Timestamp 60000000000]);
        (py "temperature", [Flt (Num (215 # 10)); Flt (Num (225 # 10))]);
        (py "humidity", [Flt (Num 60); Flt (Num 62)]);
        (py "ph", [Flt (Num (6 # 1)); Flt (Num (65 # 10))]);
        (py "ec", [Flt (Num 1); Flt (Num (12 # 10))])] |}.

(** The sites of the enumeration, in order. *)
Definition sites : list str := Dict.keys school_map.

(** Lines 63-64 on a located file: the table [pd.read_csv] makes of it,
    its [time] column replaced by what [pd.to_datetime] makes of that
    column. *)
Definition read_site {P : Pandas} (fs : FileSystem) (file_path : str)
  : result DataFrame :=
  df <-? read_csv fs file_path ;;
  time <-? getitem df (py "time") ;;
  time' <-? to_datetime time ;;
  inr (setitem df (py "time") time').

(** ** Data for the examples *)

(** A [to_datetime] for the examples.  It reads a column of whole numbers
    as nanoseconds since the epoch and keeps a column of timestamps, like
    pandas; on any other column it fails, which is all the examples need
    of it. *)
Fixpoint epoch_to_datetime (s : Series) : result Series :=
  match s with
  | [] => inr []
  | Flt (Num (Qmake ns 1)) :: s' =>
      rest <-? epoch_to_datetime s' ;; inr (Timestamp ns :: rest)
  | Timestamp ns :: s' =>
      rest <-? epoch_to_datetime s' ;; inr (Timestamp ns :: rest)
  | _ :: _ => inl DateParseError
  end.

Definition pandas_epoch : Pandas := {| to_datetime := epoch_to_datetime |}.

(** The file of [env_two_records] as [pd.read_csv] gives it: the time
    column still holds numbers. *)
Definition csv_two_records : DataFrame :=
  {| nrows := 2;
     columns :=
       [(py "time", [Flt (Num 0); Flt (Num 60000000000)]);
        (py "temperature", [Flt (Num (215 # 10)); Flt (Num (225 # 10))]);
        (py "humidity", [Flt (Num 60); Flt (Num 62)]);
        (py "ph", [Flt (Num (6 # 1)); Flt (Num (65 # 10))]);
        (py "ec", [Flt (Num 1); Flt (Num (12 # 10))])] |}.

(** A data directory without workbook: the file of 송도고 cannot be parsed,
    the file of 하늘고 is [csv_two_records], the other two sites have no
    file. *)
Definition fs_broken_songdo : FileSystem :=
  {| iterdir := [songdo ++ py "_env.csv"; haneul ++ py "_env.csv"];
     read_csv := fun name =>
       if Str.eqb name (haneul ++ py "_env.csv") then inr csv_two_records
       else inl ParserError;
     sheet_names := fun _ => inl ParserError;
     read_excel := fun _ _ => inl ParserError |}.

(** A data directory in which only 하늘고 has a file, [csv_two_records]. *)
Definition fs_haneul_only : FileSystem :=
  {| iterdir := [py "notes.txt"; haneul ++ py "_env.csv"];
     read_csv := fun name =>
       if Str.eqb name (haneul ++ py "_env.csv") then inr csv_two_records
       else inl ParserError;
     sheet_names := fun _ => inl ParserError;
     read_excel := fun _ _ => inl ParserError |}.

(** ** The rest of the tabs *)

(** A row of [summary_rows] (tab 1): 학교명, EC 목표, 개체 수. *)
Record SummaryRow : Type := {
  s_school : str;
  s_ec : option Q;
  s_count : nat
}.

(** Lines 145-150: the loop over [growth_data.items()] with its two
    accumulators. *)
Fixpoint summary_loop (items : list (str * DataFrame))
    (summary_rows : list SummaryRow) (total_count : nat)
  : list SummaryRow * nat :=
  match items with
  | [] => (summary_rows, total_count)
  | (school, df) :: rest =>
      let count := len df in
      summary_loop rest
        (summary_rows ++ [{| s_school := school;
                             s_ec := Dict.get ec_target school;
                             s_count := count |}])
        (total_count + count)
  end.

Definition summary (growth_data : Dict.t DataFrame) : list SummaryRow * nat :=
  summary_loop growth_data [] 0.


(** The fault of [pd.concat] on an empty sequence (ValueError: No objects
    to concatenate). *)
Inductive concat_exn : Type :=
| NoObjectsToConcatenate.

(** The cells a table contributes to column [col] of a concatenation: its
    own column, or one missing value per row when it has no such column
    (NaN; NaT where the column holds date-times). *)
Definition column_or_nan (col : str) (df : DataFrame) : Series :=
  match Dict.get (columns df) col with
  | Some s => s
  | None => repeat (Flt NaN) (nrows df)
  end.

(** The labels of [labels] that are not yet in [seen], added to [seen] in
    the order in which they first appear. *)
Fixpoint union_labels (seen labels : list str) : list str :=
  match labels with
  | [] => seen
  | l :: rest =>
      if existsb (Str.eqb l) seen then union_labels seen rest
      else union_labels (seen ++ [l]) rest
  end.

(** [pd.concat(objs)] with its defaults: the tables stacked row-wise, over
    the union of their columns in order of first appearance. *)
Definition concat (objs : list DataFrame) : concat_exn + DataFrame :=
  match objs with
  | [] => inl NoObjectsToConcatenate
  | _ :: _ =>
      let labels :=
        union_labels [] (flat_map (fun df => Dict.keys (columns df)) objs) in
      inr {| nrows := list_sum (map nrows objs);
             columns :=
               map (fun col => (col, flat_map (column_or_nan col) objs))
                   labels |}
  end.


(** "학교" *)
Definition col_school : str := [54617; 44368]%N.

(** [df.assign(학교=school)]: the table with the column 학교 holding
    [school] in every row. *)
Definition assign_school (df : DataFrame) (school : str) : DataFrame :=
  setitem df col_school (repeat (Text school) (nrows df)).

(** [[df.assign(학교=school) for school, df in data.items()]] *)
Definition tagged (data : Dict.t DataFrame) : list DataFrame :=
  map (fun item => assign_school (snd item) (fst item)) data.

(** Lines 245-247 ([full_env]) and 312-315 ([merged_df]): the tables of all
    sites stacked, each row tagged with its site. *)
Definition merged_df (data : Dict.t DataFrame) : concat_exn + DataFrame :=
  concat (tagged data).

(** Line 201: [[ec_target[s] for s in avg_df["학교"]]]. *)
Fixpoint target_ec (rows : list EnvRow) : result (list Q) :=
  match rows with
  | [] => inr []
  | row :: rest =>
      y <-? Dict.getitem ec_target (env_school row) ;;
      ys <-? target_ec rest ;;
      inr (y :: ys)
  end.

(** ** Vocabulary of the further statements *)

(** The sites for which [find_file] finds no file, and those for which it
    finds one, in the order of the enumeration. *)
Definition missing_sites {U : Unicode} (fs : FileSystem) : list str :=
  filter (fun school =>
            match find_file (iterdir fs) school (py ".csv") with
            | None => true
            | Some _ => false
            end) sites.

Definition found_sites {U : Unicode} (fs : FileSystem) : list str :=
  filter (fun school =>
            match find_file (iterdir fs) school (py ".csv") with
            | None => false
            | Some _ => true
            end) sites.

(** [find_file] finds a file for the key of an item of [school_map]. *)
Definition item_found {U : Unicode} (fs : FileSystem) (item : str * str)
  : bool :=
  match find_file (iterdir fs) (snd item) (py ".csv") with
  | None => false
  | Some _ => true
  end.

(** A table as pandas makes them: every column has one cell per row. *)
Definition well_formed (df : DataFrame) : Prop :=
  forall col s, In (col, s) (columns df) -> List.length s = nrows df.

(** A growth table with a numeric fresh-weight column. *)
Definition numeric_growth (df : DataFrame) : Prop :=
  exists s, getitem df col_fresh_weight = inr s /\ numeric s.

(** The part of a growth summary row that tab 1 shows too. *)
Definition summary_of (row : GrowthRow) : SummaryRow :=
  {| s_school := g_school row; s_ec := g_ec row; s_count := g_count row |}.

(** Two sheets of a workbook: 송도고 with plants of 1.0 g and 2.0 g, 하늘고
    with one plant of 3.5 g. *)
Definition sheet_songdo : DataFrame :=
  {| nrows := 2;
     columns := [(col_fresh_weight, [Flt (Num 1); Flt (Num 2)])] |}.

Definition sheet_haneul : DataFrame :=
  {| nrows := 1;
     columns := [(col_fresh_weight, [Flt (Num (35 # 10))])] |}.

(** A sheet without the fresh-weight column. *)
Definition sheet_unlabelled : DataFrame :=
  {| nrows := 1; columns := [(py "weight", [Flt (Num 1)])] |}.

(** A data directory with the files of 송도고 (its name in NFD) and 하늘고,
    and two workbooks; the first holds the sheets 송도고 and 하늘고, the
    second cannot be opened. *)
Definition fs_complete : FileSystem :=
  {| iterdir := [songdo_nfd ++ py "_env.csv"; py "growth.xlsx";
                 haneul ++ py "_env.csv"; py "old.xlsx"];
     read_csv := fun name =>
       if Str.eqb name (songdo_nfd ++ py "_env.csv")
          || Str.eqb name (haneul ++ py "_env.csv")
       then inr csv_two_records else inl ParserError;
     sheet_names := fun name =>
       if Str.eqb name (py "growth.xlsx") then inr [songdo; haneul]
       else inl ParserError;
     read_excel := fun name sheet =>
       if Str.eqb name (py "growth.xlsx") then
         if Str.eqb sheet songdo then inr sheet_songdo
         else if Str.eqb sheet haneul then inr sheet_haneul
         else inl ParserError
       else inl ParserError |}.

(** A data directory that holds one workbook, whose second sheet cannot be
    read. *)
Definition fs_broken_sheet : FileSystem :=
  {| iterdir := [py "growth.xlsx"];
     read_csv := fun _ => inl ParserError;
     sheet_names := fun _ => inr [songdo; haneul];
     read_excel := fun _ sheet =>
       if Str.eqb sheet songdo then inr sheet_songdo else inl ParserError |}.

(** ** Tactics *)




(** * Properties *)

(** ** Strings *)

Lemma Str_eqb_eq (a b : str) : Str.eqb a b = true <-> a = b.
Proof.
  revert b; induction a as [|x a IH]; intros [|y b]; simpl; split;
    try congruence; try reflexivity.
  - intros H. apply andb_true_iff in H as [Hx Hab].
    apply N.eqb_eq in Hx. apply IH in Hab. congruence.
  - intros H. injection H as -> ->. rewrite N.eqb_refl. simpl. now apply IH.
Qed.

Lemma Str_eqb_refl (a : str) : Str.eqb a a = true.
Proof. now apply Str_eqb_eq. Qed.

Lemma Str_eqb_neq (a b : str) : Str.eqb a b = false <-> a <> b.
Proof.
  split.
  - intros H E. apply Str_eqb_eq in E. congruence.
  - intros H. destruct (Str.eqb a b) eqn:E; [|reflexivity].
    apply Str_eqb_eq in E. contradiction.
Qed.

Lemma startswith_spec (p s : str) :
  Str.startswith p s = true <-> exists r, s = p ++ r.
Proof.
  revert s; induction p as [|x p IH]; intros s; simpl.
  - split; [intros _; now exists s | reflexivity].
  - destruct s as [|y s].
    + split; [discriminate | intros [r Hr]; discriminate].
    + rewrite andb_true_iff, N.eqb_eq, IH. split.
      * intros [-> [r ->]]. now exists r.
      * intros [r Hr]. injection Hr as -> ->. split; [reflexivity | now exists r].
Qed.

Lemma contains_unfold (kw s : str) :
  Str.contains kw s =
  Str.startswith kw s
  || match s with
     | [] => false
     | _ :: s' => Str.contains kw s'
     end.
Proof. destruct s; reflexivity. Qed.

Lemma contains_spec (kw s : str) :
  Str.contains kw s = true <-> Str.substring kw s.
Proof.
  unfold Str.substring. split.
  - induction s as [|c s IH]; rewrite contains_unfold, orb_true_iff.
    + intros [H | H]; [|discriminate].
      apply startswith_spec in H as [r ->]. now exists [], r.
    + intros [H | H].
      * apply startswith_spec in H as [r ->]. now exists [], r.
      * destruct (IH H) as (l & r & ->). now exists (c :: l), r.
  - intros (l & r & ->). induction l as [|c l IH].
    + rewrite contains_unfold. simpl.
      replace (Str.startswith kw (kw ++ r)) with true; [reflexivity|].
      symmetry. apply startswith_spec. now exists r.
    + rewrite contains_unfold. simpl. rewrite IH. apply orb_true_r.
Qed.

(** ** The file locator *)

Section LocatorFacts.
Context {U : Unicode}.

Lemma find_file_sound (data_dir : list str) (keyword suffix f : str) :
  find_file data_dir keyword suffix = Some f ->
  In f data_dir /\ matches keyword suffix f.
Proof.
  induction data_dir as [|g rest IH]; simpl; [discriminate|].
  destruct (Str.eqb (Path.suffix g) suffix) eqn:Hs.
  - destruct (Str.contains keyword (normalize g)) eqn:Hc.
    + intros [= <-]. split; [now left|]. split.
      * now apply Str_eqb_eq.
      * now apply contains_spec.
    + intros H. destruct (IH H). auto.
  - intros H. destruct (IH H). auto.
Qed.



(** The entry returned is the first match in iteration order. *)
Lemma find_file_first (data_dir : list str) (keyword suffix f : str) :
  find_file data_dir keyword suffix = Some f ->
  exists before after,
    data_dir = before ++ f :: after /\
    forall g, In g before -> ~ matches keyword suffix g.
Proof.
  induction data_dir as [|g rest IH]; simpl; [discriminate|].
  assert (Hskip : ~ matches keyword suffix g ->
                  find_file rest keyword suffix = Some f ->
                  exists before after,
                    g :: rest = before ++ f :: after /\
                    forall h, In h before -> ~ matches keyword suffix h).
  { intros Hg H. destruct (IH H) as (b & a & -> & Hb).
    exists (g :: b), a. split; [reflexivity|].
    intros h [<- | Hh]; auto. }
  destruct (Str.eqb (Path.suffix g) suffix) eqn:Hs.
  - destruct (Str.contains keyword (normalize g)) eqn:Hc.
    + intros [= <-]. exists [], rest. split; [reflexivity | intros ? []].
    + apply Hskip. intros [_ Hsub]. apply contains_spec in Hsub.
      unfold normalize in Hc. congruence.
  - apply Hskip. intros [Hsuf _]. apply Str_eqb_eq in Hsuf. congruence.
Qed.

End LocatorFacts.

(** ** Hangul composition *)



















(** ** Claims on the file locator *)


(** The comparison of extensions is exact: [.CSV] is not [.csv]. *)
Example find_file_case_sensitive :
  @find_file Hangul.unicode [songdo ++ py "_env.CSV"] songdo (py ".csv") = None
  /\ @find_file Hangul.unicode [songdo ++ py "_env.csv"] songdo (py ".csv")
     = Some (songdo ++ py "_env.csv").
Proof. split; reflexivity. Qed.

(** A trailing consonant after 송도고 belongs to its last syllable: the
    name reads 송도곡 and the keyword 송도고 does not occur in it. *)
Example find_file_trailing_consonant :
  @find_file Hangul.unicode [songdo_nfd ++ [0x11A8]%N ++ py ".csv"] songdo
    (py ".csv") = None.
Proof. reflexivity. Qed.


(** C9.  [find_file] normalizes the name of the entry and not the keyword:
    there are a directory, a suffix and two canonically equivalent
    keywords, [k_nfc] in NFC and [k_nfd] its decomposition, such that
    [find_file] finds an entry with [k_nfc] and returns [None] with [k_nfd];
    so [find_file d k s] and [find_file d (NFC k) s] differ for [k = k_nfd]. *)
Theorem find_file_keyword_not_normalized :
  exists (data_dir : list str) (suffix k_nfc k_nfd : str),
    Hangul.nfc k_nfc = k_nfc /\
    Hangul.decompose k_nfc = k_nfd /\
    Hangul.nfc k_nfd = k_nfc /\
    (exists f, @find_file Hangul.unicode data_dir k_nfc suffix = Some f) /\
    @find_file Hangul.unicode data_dir k_nfd suffix = None /\
    @find_file Hangul.unicode data_dir k_nfd suffix <>
    @find_file Hangul.unicode data_dir (@NFC Hangul.unicode k_nfd) suffix.
Proof.
  exists [songdo ++ py "_env.csv"], (py ".csv"), songdo, songdo_nfd.
  repeat split; try reflexivity.
  - now exists (songdo ++ py "_env.csv").
  - discriminate.
Qed.

(** ** The best row of the growth summary *)

Lemma nth_error_snoc {A : Type} (pre : list A) (x y : A) (j : nat) :
  nth_error (pre ++ [x]) j = Some y ->
  ((j < List.length pre)%nat /\ nth_error pre j = Some y)
  \/ (j = List.length pre /\ y = x).
Proof.
  intros H. destruct (Nat.lt_ge_cases j (List.length pre)) as [Hlt | Hge].
  - left. split; [exact Hlt|]. now rewrite nth_error_app1 in H.
  - right. rewrite nth_error_app2 in H by exact Hge.
    destruct (j - List.length pre)%nat as [|k] eqn:Hk; simpl in H.
    + split; [lia | congruence].
    + now destruct k.
Qed.

Lemma argmax_state_step (pre : list float) (best : option (nat * Q)) (x : float) :
  argmax_state pre best ->
  argmax_state (pre ++ [x])
    match x with
    | NaN => best
    | Num q =>
        match best with
        | Some (_, b) => if Qle_bool q b then best else Some (List.length pre, q)
        | None => Some (List.length pre, q)
        end
    end.
Proof.
  intros Hinv.
  assert (Hnew : forall q,
             (forall j w', nth_error pre j = Some (Num w') -> (w' < q)%Q) ->
             first_maximum (pre ++ [Num q]) (List.length pre) q).
  { intros q Hlt. repeat split.
    - rewrite nth_error_app2, Nat.sub_diag by lia. reflexivity.
    - intros j w' Hj. apply nth_error_snoc in Hj as [[_ Hj] | [_ [= ->]]].
      + apply Qlt_le_weak. eauto.
      + apply Qle_refl.
    - intros j w' Hji Hj. apply nth_error_snoc in Hj as [[_ Hj] | [-> _]].
      + eauto.
      + lia. }
  destruct x as [|q].
  - destruct best as [[i w]|]; simpl in *.
    + destruct Hinv as (Hi & Hmax & Hfirst). repeat split.
      * rewrite nth_error_app1; [exact Hi|]. apply nth_error_Some. congruence.
      * intros j w' Hj. apply nth_error_snoc in Hj as [[_ Hj] | [_ [=]]]. eauto.
      * intros j w' Hji Hj.
        apply nth_error_snoc in Hj as [[_ Hj] | [_ [=]]]. eauto.
    + intros j x Hj. apply nth_error_snoc in Hj as [[_ Hj] | [_ ->]]; eauto.
  - destruct best as [[i w]|]; simpl in *.
    + destruct Hinv as (Hi & Hmax & Hfirst).
      destruct (Qle_bool q w) eqn:Hle.
      * apply Qle_bool_iff in Hle. repeat split.
        -- rewrite nth_error_app1; [exact Hi|]. apply nth_error_Some. congruence.
        -- intros j w' Hj.
           apply nth_error_snoc in Hj as [[_ Hj] | [_ [= ->]]]; eauto.
        -- intros j w' Hji Hj.
           apply nth_error_snoc in Hj as [[_ Hj] | [-> _]]; [eauto|].
           assert (i < List.length pre)%nat
             by (apply nth_error_Some; congruence).
           lia.
      * assert (Hlt : (w < q)%Q).
        { apply Qnot_le_lt. intros H. apply Qle_bool_iff in H. congruence. }
        apply Hnew. intros j w' Hj.
        apply Qle_lt_trans with w; eauto.
    + apply Hnew. intros j w' Hj. apply Hinv in Hj. discriminate.
Qed.

Lemma nanargmax_state (xs pre : list float) (best : option (nat * Q)) :
  argmax_state pre best ->
  argmax_state (pre ++ xs) (nanargmax best (List.length pre) xs).
Proof.
  revert pre best. induction xs as [|x xs IH]; intros pre best Hinv.
  - simpl. now rewrite app_nil_r.
  - replace (pre ++ x :: xs) with ((pre ++ [x]) ++ xs)
      by now rewrite <- app_assoc.
    apply (argmax_state_step pre best x) in Hinv.
    apply IH in Hinv. rewrite length_app, Nat.add_1_r in Hinv.
    destruct x as [|q]; simpl; [exact Hinv|].
    destruct best as [[i b]|]; [|exact Hinv].
    destruct (Qle_bool q b); exact Hinv.
Qed.

Lemma idxmax_first_maximum (xs : list float) (i : nat) :
  idxmax xs = inr i -> exists w, first_maximum xs i w.
Proof.
  unfold idxmax. destruct xs as [|x xs]; [discriminate|].
  pose proof (nanargmax_state (x :: xs) [] None) as H.
  simpl List.length in H. simpl app in H.
  destruct (nanargmax None 0 (x :: xs)) as [[k w]|]; [|discriminate].
  intros [= <-]. exists w. apply H. intros j y Hj. now destruct j.
Qed.

Lemma idxmax_valid (xs : list float) (w : Q) :
  In (Num w) xs -> exists i, idxmax xs = inr i.
Proof.
  intros Hin. unfold idxmax. destruct xs as [|x xs]; [contradiction|].
  pose proof (nanargmax_state (x :: xs) [] None) as H.
  simpl List.length in H. simpl app in H.
  destruct (nanargmax None 0 (x :: xs)) as [[k v]|]; [now exists k|].
  apply In_nth_error in Hin as [j Hj].
  assert (Hnan : forall j y, nth_error (@nil float) j = Some y -> y = NaN)
    by (intros k y Hk; now destruct k).
  specialize (H Hnan j _ Hj). discriminate.
Qed.

(** C1 (amended).  On every sequence of growth summaries in which some mean
    fresh weight is a number, [best_row] returns the row of the greatest
    mean fresh weight (rows whose mean is NaN are passed over), and among
    the rows that share this maximum the first in iteration order; on the
    summaries A 3.2, B 5.1, C 5.1 the result is B. *)
Theorem best_row_first_maximum :
  (forall (ec_df : list GrowthRow),
      (exists r w, In r ec_df /\ g_mean_weight r = Num w) ->
      exists i r w,
        best_row ec_df = inr r /\
        nth_error ec_df i = Some r /\
        g_mean_weight r = Num w /\
        (forall r' w', In r' ec_df -> g_mean_weight r' = Num w' -> (w' <= w)%Q) /\
        (forall j r' w', (j < i)%nat -> nth_error ec_df j = Some r' ->
                         g_mean_weight r' = Num w' -> (w' < w)%Q))
  /\ best_row [summary_A; summary_B; summary_C] = inr summary_B.
Proof.
  split; [|reflexivity].
  intros ec_df (r0 & w0 & Hin0 & Hw0).
  assert (Hvalid : In (Num w0) (map g_mean_weight ec_df))
    by (rewrite <- Hw0; now apply in_map).
  destruct (idxmax_valid _ _ Hvalid) as [i Hi].
  destruct (idxmax_first_maximum _ _ Hi) as (w & Hnth & Hmax & Hfirst).
  rewrite nth_error_map in Hnth.
  destruct (nth_error ec_df i) as [r|] eqn:Hr; [|discriminate].
  injection Hnth as Hw.
  exists i, r, w. unfold best_row, loc. rewrite Hi. simpl. rewrite Hr.
  repeat split; try assumption.
  - intros r' w' Hin' Hw'. apply In_nth_error in Hin' as [j Hj].
    apply (Hmax j). rewrite nth_error_map, Hj. simpl. now rewrite Hw'.
  - intros j r' w' Hji Hj Hw'. apply (Hfirst j); [exact Hji|].
    rewrite nth_error_map, Hj. simpl. now rewrite Hw'.
Qed.

Lemma best_row_first_maximum_witness :
  exists i r w,
    best_row [summary_A; summary_B; summary_C] = inr r /\
    nth_error [summary_A; summary_B; summary_C] i = Some r /\
    g_mean_weight r = Num w /\
    (forall r' w', In r' [summary_A; summary_B; summary_C] ->
                   g_mean_weight r' = Num w' -> (w' <= w)%Q) /\
    (forall j r' w', (j < i)%nat ->
                     nth_error [summary_A; summary_B; summary_C] j = Some r' ->
                     g_mean_weight r' = Num w' -> (w' < w)%Q).
Proof.
  apply (proj1 best_row_first_maximum [summary_A; summary_B; summary_C]).
  exists summary_A, (32 # 10)%Q. split; [now left | reflexivity].
Defined.

(** The first of two equal means wins also when the two are computed from
    different records: B has mean (5.0 + 5.2) / 2 and C has mean 5.1. *)
Example best_row_growth_tie :
  exists r,
    (rows <-? ec_summary growth_tie ;; best_row rows) = inr r /\
    g_school r = py "B" /\ g_count r = 2%nat.
Proof. eexists. split; [reflexivity|]. split; reflexivity. Qed.

(** C1 as stated fails on a growth mapping that is not empty: with the one
    sheet 송도고 in which no fresh weight is recorded the summary has one
    row, its mean is NaN, and [best_row] raises instead of returning it. *)
Lemma best_row_unweighed_raises :
  Dict.is_empty growth_unweighed = false /\
  ec_summary growth_unweighed =
    inr [{| g_school := songdo; g_ec := Some 1%Q; g_mean_weight := NaN;
            g_count := 2 |}] /\
  (r <-? ec_summary growth_unweighed ;; best_row r) = inl ArgmaxAllNaN.
Proof. repeat split. Qed.


(** ** The environment means *)

Lemma nansum_count_numeric (s : Series) (sum : Q) (count : nat) :
  numeric s ->
  exists sum',
    nansum_count s sum count = inr (sum', (count + List.length (valid s))%nat) /\
    (sum' == sum + fold_right Qplus 0 (valid s))%Q.
Proof.
  revert sum count. induction s as [|c s IH]; intros sum count Hnum.
  - exists sum. simpl. rewrite Nat.add_0_r, Qplus_0_r. split; reflexivity.
  - assert (Hs : numeric s) by (intros d Hd; apply Hnum; now right).
    destruct (Hnum c (or_introl eq_refl)) as [x ->].
    destruct x as [|q]; simpl.
    + now apply IH.
    + destruct (IH (sum + q)%Q (S count) Hs) as (sum' & Heq & Hsum).
      exists sum'. split.
      * rewrite Heq. now rewrite Nat.add_succ_r.
      * rewrite Hsum. symmetry. apply Qplus_assoc.
Qed.

Lemma mean_numeric (s : Series) :
  numeric s -> exists m, mean s = inr m /\ is_mean s m.
Proof.
  intros Hnum. unfold mean, is_mean.
  destruct (nansum_count_numeric s 0%Q 0 Hnum) as (sum' & Heq & Hsum).
  rewrite Heq. simpl. destruct (valid s) as [|v vs] eqn:Hv; simpl.
  - now exists NaN.
  - eexists. split; [reflexivity|]. exists (sum' / inject_Z (Z.of_nat (S (List.length vs))))%Q.
    split; [reflexivity|]. unfold arith_mean.
    rewrite Hsum, Qplus_0_l. reflexivity.
Qed.

Lemma mean_no_records : mean [] = inr NaN.
Proof. reflexivity. Qed.

(** A column without missing values has all its cells for valid values. *)
Lemma valid_numbers (xs : list Q) : valid (map (fun q => Flt (Num q)) xs) = xs.
Proof. induction xs as [|q xs IH]; simpl; congruence. Qed.

Lemma dict_get_key {V : Type} (d : Dict.t V) (k : str) :
  In k (Dict.keys d) -> exists v, Dict.get d k = Some v.
Proof.
  induction d as [|[k' v'] d IH]; simpl; [contradiction|].
  intros Hin. destruct (Str.eqb k' k) eqn:E; [now exists v'|].
  destruct Hin as [-> | Hin]; [|now apply IH].
  now rewrite Str_eqb_refl in E.
Qed.







(** On a column without missing values the mean is the arithmetic mean of
    all its cells. *)
Lemma mean_all_present (xs : list Q) :
  xs <> [] ->
  exists q, mean (map (fun x => Flt (Num x)) xs) = inr (Num q) /\
            (q == arith_mean xs)%Q.
Proof.
  intros Hne.
  destruct (mean_numeric (map (fun x => Flt (Num x)) xs)) as (m & Hm & His).
  { intros c Hc. apply in_map_iff in Hc as (x & <- & _). now eexists. }
  unfold is_mean in His. rewrite valid_numbers in His.
  destruct xs as [|x xs]; [contradiction|].
  destruct His as (q & -> & Hq). now exists q.
Qed.

(** ** Dictionaries and tables *)

Lemma dict_get_set_same {V : Type} (d : Dict.t V) (k : str) (v : V) :
  Dict.get (Dict.set d k v) k = Some v.
Proof.
  induction d as [|[k' v'] d IH]; simpl.
  - now rewrite Str_eqb_refl.
  - destruct (Str.eqb k' k) eqn:E; simpl; rewrite E; [reflexivity | exact IH].
Qed.

Lemma dict_get_set_other {V : Type} (d : Dict.t V) (k k' : str) (v : V) :
  k' <> k -> Dict.get (Dict.set d k v) k' = Dict.get d k'.
Proof.
  intros Hne. induction d as [|[k0 v0] d IH]; simpl.
  - apply not_eq_sym in Hne. apply Str_eqb_neq in Hne. now rewrite Hne.
  - destruct (Str.eqb k0 k) eqn:E; simpl.
    + apply Str_eqb_eq in E. subst k0.
      apply not_eq_sym in Hne. apply Str_eqb_neq in Hne. now rewrite Hne.
    + destruct (Str.eqb k0 k'); [reflexivity | exact IH].
Qed.

(** Assigning to a key that is present keeps the keys and their order. *)
Lemma dict_keys_set_present {V : Type} (d : Dict.t V) (k : str) (v v0 : V) :
  Dict.get d k = Some v0 -> Dict.keys (Dict.set d k v) = Dict.keys d.
Proof.
  induction d as [|[k' v'] d IH]; cbn [Dict.get Dict.set]; [discriminate|].
  destruct (Str.eqb k' k) eqn:E; [reflexivity|].
  intros H. unfold Dict.keys in *. cbn [map]. f_equal. now apply IH.
Qed.

Lemma getitem_inr (df : DataFrame) (key : str) (s : Series) :
  getitem df key = inr s <-> Dict.get (columns df) key = Some s.
Proof.
  unfold getitem, Dict.getitem.
  destruct (Dict.get (columns df) key); split; congruence.
Qed.

Lemma getitem_setitem_same (df : DataFrame) (key : str) (value : Series) :
  getitem (setitem df key value) key = inr value.
Proof. apply getitem_inr. apply dict_get_set_same. Qed.

Lemma getitem_setitem_other (df : DataFrame) (key col : str) (value : Series) :
  col <> key -> getitem (setitem df key value) col = getitem df col.
Proof.
  intros Hne. unfold getitem, Dict.getitem, setitem. simpl.
  now rewrite dict_get_set_other.
Qed.

(** ** The environment loader *)

Section LoaderFacts.
Context {U : Unicode} {P : Pandas}.
Variable fs : FileSystem.

(** One turn of the loop. *)
Lemma load_environment_loop_cons (school key : str) (rest : list (str * str))
    (env_data : Dict.t DataFrame) :
  load_environment_loop fs ((school, key) :: rest) env_data =
  match find_file (iterdir fs) key (py ".csv") with
  | None =>
      let (shown, r) := load_environment_loop fs rest env_data in
      ((school ++ msg_env_not_found) :: shown, r)
  | Some file_path =>
      match read_site fs file_path with
      | inl e => ([], inl e)
      | inr df => load_environment_loop fs rest (Dict.set env_data school df)
      end
  end.
Proof.
  cbn [load_environment_loop].
  destruct (find_file (iterdir fs) key (py ".csv")) as [file_path|].
  - unfold read_site, lift, bind.
    destruct (read_csv fs file_path) as [e|df]; [reflexivity|].
    cbn [rbind].
    destruct (getitem df (py "time")) as [e|time]; [reflexivity|].
    cbn [rbind].
    destruct (to_datetime time) as [e|time']; [reflexivity|].
    cbn [rbind].
    now destruct (load_environment_loop fs rest _).
  - unfold st_error, bind.
    now destruct (load_environment_loop fs rest env_data).
Qed.

(** Where a table of the result comes from. *)
Lemma load_environment_loop_origin (items : list (str * str))
    (env_data : Dict.t DataFrame) (shown : list str)
    (env_data' : Dict.t DataFrame) (school : str) (df : DataFrame) :
  load_environment_loop fs items env_data = (shown, inr env_data') ->
  Dict.get env_data' school = Some df ->
  (exists key file_path,
      In (school, key) items /\
      find_file (iterdir fs) key (py ".csv") = Some file_path /\
      read_site fs file_path = inr df)
  \/ Dict.get env_data school = Some df.
Proof.
  revert env_data shown. induction items as [|[school0 key0] rest IH];
    intros env_data shown Hrun Hget.
  - injection Hrun as _ <-. now right.
  - rewrite load_environment_loop_cons in Hrun.
    destruct (find_file (iterdir fs) key0 (py ".csv")) as [f0|] eqn:Hfind.
    + destruct (read_site fs f0) as [e|df0] eqn:Hread; [discriminate|].
      destruct (IH _ _ Hrun Hget) as [(key & f & Hin & Hf & Hr) | Hold].
      * left. exists key, f. split; [now right | auto].
      * destruct (Str.eqb school0 school) eqn:E.
        -- apply Str_eqb_eq in E. subst school0.
           rewrite dict_get_set_same in Hold. injection Hold as ->.
           left. exists key0, f0. split; [now left | auto].
        -- apply Str_eqb_neq in E.
           rewrite dict_get_set_other in Hold by congruence. now right.
    + destruct (load_environment_loop fs rest env_data) as [shown' r] eqn:Hrest.
      injection Hrun as _ ->.
      destruct (IH _ _ Hrest Hget) as [(key & f & Hin & Hf & Hr) | Hold].
      * left. exists key, f. split; [now right | auto].
      * now right.
Qed.


(** A located file that does not load ends the loop with an exception,
    the one of the first such file met. *)
Lemma load_environment_loop_raises (items : list (str * str))
    (env_data : Dict.t DataFrame) (school key file_path : str) (e : exn) :
  In (school, key) items ->
  find_file (iterdir fs) key (py ".csv") = Some file_path ->
  read_site fs file_path = inl e ->
  exists shown e' school' key' file_path',
    load_environment_loop fs items env_data = (shown, inl e') /\
    In (school', key') items /\
    find_file (iterdir fs) key' (py ".csv") = Some file_path' /\
    read_site fs file_path' = inl e'.
Proof.
  intros Hin Hfind Hread. revert env_data.
  induction items as [|[school0 key0] rest IH]; intros env_data;
    [contradiction|].
  rewrite load_environment_loop_cons.
  destruct (find_file (iterdir fs) key0 (py ".csv")) as [f0|] eqn:Hfind0.
  - destruct (read_site fs f0) as [e0|df0] eqn:Hread0.
    + exists [], e0, school0, key0, f0. split; [reflexivity|].
      split; [now left | auto].
    + destruct Hin as [[= -> ->] | Hin]; [congruence|].
      destruct (IH Hin (Dict.set env_data school0 df0))
        as (shown & e' & s' & k' & f' & Hrun & Hin' & Hrest).
      exists shown, e', s', k', f'. split; [exact Hrun|].
      split; [now right | exact Hrest].
  - destruct Hin as [[= -> ->] | Hin]; [congruence|].
    destruct (IH Hin env_data)
      as (shown & e' & s' & k' & f' & Hrun & Hin' & Hrest).
    rewrite Hrun.
    exists ((school0 ++ msg_env_not_found) :: shown), e', s', k', f'.
    split; [reflexivity|]. split; [now right | exact Hrest].
Qed.

End LoaderFacts.

Lemma school_map_items (school key : str) :
  In (school, key) school_map <-> In school sites /\ key = school.
Proof.
  unfold sites, school_map. simpl. split.
  - intros [H | [H | [H | [H | []]]]]; injection H as <- <-; tauto.
  - intros [[<- | [<- | [<- | [<- | []]]]] ->]; tauto.
Qed.

Lemma sites_distinct : NoDup sites.
Proof.
  unfold sites, school_map. simpl.
  repeat constructor; simpl; intuition discriminate.
Qed.

Lemma read_site_inr {P : Pandas} (fs : FileSystem) (file_path : str)
    (df : DataFrame) :
  read_site fs file_path = inr df <->
  exists raw time time',
    read_csv fs file_path = inr raw /\
    getitem raw (py "time") = inr time /\
    to_datetime time = inr time' /\
    df = setitem raw (py "time") time'.
Proof.
  unfold read_site. split.
  - destruct (read_csv fs file_path) as [e|raw]; [discriminate|]. cbn [rbind].
    destruct (getitem raw (py "time")) as [e|time] eqn:Ht; [discriminate|].
    cbn [rbind].
    destruct (to_datetime time) as [e|time'] eqn:Hd; [discriminate|].
    cbn [rbind].
    intros [= <-]. now exists raw, time, time'.
  - intros (raw & time & time' & -> & Ht & Hd & ->). cbn [rbind].
    rewrite Ht. cbn [rbind]. now rewrite Hd.
Qed.

(** ** Claims on the environment loader *)



(** C10.  A table that the loader stores for a site is the table parsed
    from the file located for that site with one change, the assignment of
    the coerced [time] column: every other column is the parsed one, and
    the labels of the columns, their order and the number of rows are
    those of the parsed table. *)
Theorem load_environment_data_time_only :
  forall (U : Unicode) (P : Pandas) (fs : FileSystem) (shown : list str)
         (env_data : Dict.t DataFrame) (school : str) (df : DataFrame),
    load_environment_data fs = (shown, inr env_data) ->
    Dict.get env_data school = Some df ->
    exists file_path raw time time',
      In school sites /\
      find_file (iterdir fs) school (py ".csv") = Some file_path /\
      read_csv fs file_path = inr raw /\
      getitem raw (py "time") = inr time /\
      to_datetime time = inr time' /\
      getitem df (py "time") = inr time' /\
      (forall col, col <> py "time" -> getitem df col = getitem raw col) /\
      Dict.keys (columns df) = Dict.keys (columns raw) /\
      len df = len raw.
Proof.
  intros U P fs shown env_data school df Hrun Hget.
  destruct (load_environment_loop_origin fs _ _ _ _ _ _ Hrun Hget)
    as [(key & f & Hitem & Hfind & Hread) | Hold]; [|discriminate].
  apply school_map_items in Hitem as [Hs ->].
  apply read_site_inr in Hread as (raw & time & time' & Hr & Ht & Hd & ->).
  exists f, raw, time, time'. repeat (split; [assumption|]).
  split; [apply getitem_setitem_same|].
  split; [intros col Hcol; now apply getitem_setitem_other|].
  split; [|reflexivity].
  apply getitem_inr in Ht. simpl. now apply dict_keys_set_present with time.
Qed.

Lemma load_environment_data_time_only_witness :
  exists file_path raw time time',
    In haneul sites /\
    @find_file Hangul.unicode (iterdir fs_haneul_only) haneul (py ".csv")
    = Some file_path /\
    read_csv fs_haneul_only file_path = inr raw /\
    getitem raw (py "time") = inr time /\
    epoch_to_datetime time = inr time' /\
    getitem env_two_records (py "time") = inr time' /\
    (forall col, col <> py "time" ->
                 getitem env_two_records col = getitem raw col) /\
    Dict.keys (columns env_two_records) = Dict.keys (columns raw) /\
    len env_two_records = len raw.
Proof.
  eapply (load_environment_data_time_only
            Hangul.unicode pandas_epoch fs_haneul_only).
  - vm_compute. reflexivity.
  - reflexivity.
Defined.

(** C4 (amended).  A site whose file is located and does not load (the
    parse fails, the table has no [time] column, or the coercion of that
    column fails) is not skipped: the loader ends with an exception, that
    of a located file that does not load, and returns no mapping. *)
Theorem load_environment_data_parse_error_escapes :
  forall (U : Unicode) (P : Pandas) (fs : FileSystem)
         (school file_path : str) (e : exn),
    In school sites ->
    find_file (iterdir fs) school (py ".csv") = Some file_path ->
    read_site fs file_path = inl e ->
    exists shown e' school' file_path',
      load_environment_data fs = (shown, inl e') /\
      In school' sites /\
      find_file (iterdir fs) school' (py ".csv") = Some file_path' /\
      read_site fs file_path' = inl e'.
Proof.
  intros U P fs school file_path e Hs Hfind Hread.
  destruct (load_environment_loop_raises fs school_map [] school school
              file_path e) as (shown & e' & s' & k' & f' & Hrun & Hitem & Hf & Hr);
    [apply school_map_items; auto | assumption | assumption |].
  apply school_map_items in Hitem as [Hs' ->].
  now exists shown, e', s', f'.
Qed.

Lemma load_environment_data_parse_error_escapes_witness :
  exists shown e' school' file_path',
    @load_environment_data Hangul.unicode pandas_epoch fs_broken_songdo
    = (shown, inl e') /\
    In school' sites /\
    @find_file Hangul.unicode (iterdir fs_broken_songdo) school' (py ".csv")
    = Some file_path' /\
    @read_site pandas_epoch fs_broken_songdo file_path' = inl e'.
Proof.
  apply (load_environment_data_parse_error_escapes
           Hangul.unicode pandas_epoch fs_broken_songdo
           songdo (songdo ++ py "_env.csv") ParserError).
  - left. reflexivity.
  - reflexivity.
  - reflexivity.
Defined.

(** C4 as stated fails: the file of 송도고 is located and cannot be
    parsed, the file of 하늘고 is located and parses; whatever
    [to_datetime] does, the loader ends with the parse error and returns
    no mapping, so 하늘고 is not loaded either. *)
Lemma parse_error_is_not_per_site :
  @find_file Hangul.unicode (iterdir fs_broken_songdo) songdo (py ".csv")
  = Some (songdo ++ py "_env.csv") /\
  read_csv fs_broken_songdo (songdo ++ py "_env.csv") = inl ParserError /\
  @find_file Hangul.unicode (iterdir fs_broken_songdo) haneul (py ".csv")
  = Some (haneul ++ py "_env.csv") /\
  read_csv fs_broken_songdo (haneul ++ py "_env.csv") = inr csv_two_records /\
  (forall P : Pandas,
      @load_environment_data Hangul.unicode P fs_broken_songdo
      = ([], inl ParserError)).
Proof. repeat split. Qed.

(** ** Claims on the growth loader *)

Lemma first_xlsx_None (entries : list str) :
  (forall f, In f entries -> Path.suffix f <> py ".xlsx") ->
  first_xlsx entries = None.
Proof.
  induction entries as [|f rest IH]; intros Hno; [reflexivity|].
  simpl. destruct (Str.eqb (Path.suffix f) (py ".xlsx")) eqn:E.
  - apply Str_eqb_eq in E. now destruct (Hno f (or_introl eq_refl)).
  - apply IH. intros g Hg. apply Hno. now right.
Qed.

(** C5.  In a directory without an entry of extension [.xlsx] the growth
    loader shows the one message that the workbook is not found and
    returns the empty mapping, whatever else the directory holds; the
    empty mapping makes the stop gate of the script fire, so that the
    script halts once the environment loader has returned. *)
Theorem load_growth_data_no_workbook :
  forall fs : FileSystem,
    (forall f, In f (iterdir fs) -> Path.suffix f <> py ".xlsx") ->
    load_growth_data fs = ([msg_xlsx_not_found], inr []) /\
    (forall env_data, stops env_data [] = true) /\
    (forall (U : Unicode) (P : Pandas) (shown : list str)
            (env_data : Dict.t DataFrame),
        load_environment_data fs = (shown, inr env_data) ->
        start fs = (shown ++ [msg_xlsx_not_found], inr Stopped)).
Proof.
  intros fs Hno.
  assert (Hload : load_growth_data fs = ([msg_xlsx_not_found], inr []))
    by (unfold load_growth_data; now rewrite first_xlsx_None).
  assert (Hstop : forall env_data, stops env_data [] = true)
    by (intros env_data; unfold stops; apply orb_true_r).
  repeat split; try assumption.
  intros U P shown env_data Henv. unfold start, bind.
  rewrite Henv, Hload, Hstop. reflexivity.
Qed.

Lemma load_growth_data_no_workbook_witness :
  load_growth_data fs_haneul_only = ([msg_xlsx_not_found], inr []) /\
  @start Hangul.unicode pandas_epoch fs_haneul_only =
  ([songdo ++ msg_env_not_found; ara ++ msg_env_not_found;
    dongsan ++ msg_env_not_found; msg_xlsx_not_found], inr Stopped).
Proof.
  destruct (load_growth_data_no_workbook fs_haneul_only) as (Hload & _ & Hstart).
  - intros f [<- | [<- | []]]; vm_compute; discriminate.
  - split; [exact Hload|].
    apply (Hstart Hangul.unicode pandas_epoch
             [songdo ++ msg_env_not_found; ara ++ msg_env_not_found;
              dongsan ++ msg_env_not_found]
             [(haneul, env_two_records)]).
    vm_compute. reflexivity.
Defined.

(** * Further properties *)

(** ** The file locator *)

(** X1.  [find_file] returns [f] exactly when [f] is the first entry, in
    iteration order, that matches: the directory reads [before], [f],
    [after] with [f] a match and no match in [before]. *)
Theorem find_file_first_match :
  forall (U : Unicode) (data_dir : list str) (keyword suffix f : str),
    find_file data_dir keyword suffix = Some f <->
    exists before after,
      data_dir = before ++ f :: after /\
      matches keyword suffix f /\
      forall g, In g before -> ~ matches keyword suffix g.
Proof.
  intros U data_dir keyword suffix f. split.
  - intros Hfind. destruct (find_file_sound _ _ _ _ Hfind) as [_ Hm].
    destruct (find_file_first _ _ _ _ Hfind) as (before & after & Heq & Hno).
    now exists before, after.
  - intros (before & after & -> & [Hs Hc] & Hno).
    induction before as [|g before IH]; cbn [app find_file].
    + apply Str_eqb_eq in Hs. apply contains_spec in Hc.
      unfold normalize. now rewrite Hs, Hc.
    + assert (Hskip : find_file (before ++ f :: after) keyword suffix = Some f)
        by (apply IH; intros h Hh; apply Hno; now right).
      destruct (Str.eqb (Path.suffix g) suffix) eqn:Hsg; [|exact Hskip].
      destruct (Str.contains keyword (normalize g)) eqn:Hcg; [|exact Hskip].
      destruct (Hno g (or_introl eq_refl)). split.
      * now apply Str_eqb_eq.
      * now apply contains_spec.
Qed.

(** Three entries, the last two matching 송도고: the first of them is
    returned. *)
Example find_file_two_matches :
  @find_file Hangul.unicode
    [py "notes.txt"; songdo ++ py "_1.csv"; songdo_nfd ++ py "_2.csv"]
    songdo (py ".csv") = Some (songdo ++ py "_1.csv").
Proof. reflexivity. Qed.

(** X2.  With the empty keyword [find_file] returns the first entry that has the
    extension, whatever its name; the search for the workbook in
    [load_growth_data] is [find_file] with the empty keyword and the
    extension [.xlsx], for every normalization. *)
Theorem first_xlsx_find_file :
  forall (U : Unicode) (entries : list str),
    first_xlsx entries = find_file entries [] (py ".xlsx") /\
    forall suffix,
      find_file entries [] suffix =
      find (fun f => Str.eqb (Path.suffix f) suffix) entries.
Proof.
  intros U entries.
  assert (Hall : forall suffix,
             find_file entries [] suffix =
             find (fun f => Str.eqb (Path.suffix f) suffix) entries).
  { intros suffix. induction entries as [|f rest IH]; [reflexivity|].
    cbn [find_file find]. rewrite contains_unfold. cbn [Str.startswith orb].
    now destruct (Str.eqb (Path.suffix f) suffix). }
  split; [|exact Hall]. rewrite Hall.
  induction entries as [|f rest IH]; [reflexivity|].
  cbn [first_xlsx find]. now destruct (Str.eqb (Path.suffix f) (py ".xlsx")).
Qed.

(** ** The environment loader, exactly *)

Lemma dict_keys_set_fresh {V : Type} (d : Dict.t V) (k : str) (v : V) :
  Dict.get d k = None -> Dict.keys (Dict.set d k v) = Dict.keys d ++ [k].
Proof.
  induction d as [|[k' v'] d IH]; cbn [Dict.get Dict.set]; [reflexivity|].
  destruct (Str.eqb k' k); [discriminate|].
  intros H. unfold Dict.keys in *. cbn [map app]. f_equal. now apply IH.
Qed.

Lemma dict_all_absent {V : Type} (d : Dict.t V) :
  (forall k, Dict.get d k = None) -> d = [].
Proof.
  destruct d as [|[k v] d]; [reflexivity|]. intros H. specialize (H k).
  simpl in H. now rewrite Str_eqb_refl in H.
Qed.

Section LoaderExact.
Context {U : Unicode} {P : Pandas}.
Variable fs : FileSystem.

(** When every located file loads, the loop shows one message per item
    without file, in order, and adds the items with a file to the mapping,
    in order. *)
Lemma load_environment_loop_exact (items : list (str * str))
    (env_data : Dict.t DataFrame) :
  NoDup (map fst items) ->
  (forall school, In school (map fst items) -> Dict.get env_data school = None) ->
  (forall school key file_path,
      In (school, key) items ->
      find_file (iterdir fs) key (py ".csv") = Some file_path ->
      exists df, read_site fs file_path = inr df) ->
  exists env_data',
    load_environment_loop fs items env_data =
    (map (fun item => fst item ++ msg_env_not_found)
         (filter (fun item => negb (item_found fs item)) items),
     inr env_data') /\
    Dict.keys env_data' =
    Dict.keys env_data ++ map fst (filter (item_found fs) items).
Proof.
  revert env_data. induction items as [|[school0 key0] rest IH];
    intros env_data Hnodup Hfresh Hloads.
  - exists env_data. split; [reflexivity|]. simpl. now rewrite app_nil_r.
  - inversion Hnodup as [|? ? Hnew Hnodup']; subst.
    assert (Hloads' : forall school key file_path,
               In (school, key) rest ->
               find_file (iterdir fs) key (py ".csv") = Some file_path ->
               exists df, read_site fs file_path = inr df)
      by (intros school key f Hin; apply (Hloads school); now right).
    rewrite load_environment_loop_cons. cbn [filter].
    assert (Hfound : item_found fs (school0, key0) =
                     match find_file (iterdir fs) key0 (py ".csv") with
                     | None => false
                     | Some _ => true
                     end) by reflexivity.
    rewrite !Hfound. clear Hfound.
    destruct (find_file (iterdir fs) key0 (py ".csv")) as [f0|] eqn:Hfind.
    + destruct (Hloads school0 key0 f0 (or_introl eq_refl) Hfind) as [df0 Hdf0].
      rewrite Hdf0. cbn [negb].
      destruct (IH (Dict.set env_data school0 df0) Hnodup') as (env' & Hrun & Hkeys);
        [|exact Hloads'|].
      * intros school Hin. rewrite dict_get_set_other.
        -- apply Hfresh. now right.
        -- intros ->. contradiction.
      * exists env'. split; [exact Hrun|]. rewrite Hkeys.
        rewrite dict_keys_set_fresh by (apply Hfresh; now left).
        cbn [map fst]. now rewrite <- app_assoc.
    + destruct (IH env_data Hnodup') as (env' & Hrun & Hkeys);
        [|exact Hloads'|].
      * intros school Hin. apply Hfresh. now right.
      * exists env'. rewrite Hrun. cbn [negb map fst]. split; [reflexivity|].
        exact Hkeys.
Qed.

(** The loop shows nothing but messages of sites without file. *)
Lemma school_map_missing :
  map (fun item => fst item ++ msg_env_not_found)
      (filter (fun item => negb (item_found fs item)) school_map) =
  map (fun school => school ++ msg_env_not_found) (missing_sites fs).
Proof.
  unfold missing_sites, sites, school_map, item_found. cbn [Dict.keys map filter fst snd].
  destruct (find_file (iterdir fs) songdo (py ".csv"));
    destruct (find_file (iterdir fs) haneul (py ".csv"));
    destruct (find_file (iterdir fs) ara (py ".csv"));
    destruct (find_file (iterdir fs) dongsan (py ".csv")); reflexivity.
Qed.

Lemma school_map_found :
  map fst (filter (item_found fs) school_map) = found_sites fs.
Proof.
  unfold found_sites, sites, school_map, item_found. cbn [Dict.keys map filter fst snd].
  destruct (find_file (iterdir fs) songdo (py ".csv"));
    destruct (find_file (iterdir fs) haneul (py ".csv"));
    destruct (find_file (iterdir fs) ara (py ".csv"));
    destruct (find_file (iterdir fs) dongsan (py ".csv")); reflexivity.
Qed.

Lemma load_environment_data_exact :
  (forall school file_path,
      In school sites ->
      find_file (iterdir fs) school (py ".csv") = Some file_path ->
      exists df, read_site fs file_path = inr df) ->
  exists env_data,
    load_environment_data fs =
    (map (fun school => school ++ msg_env_not_found) (missing_sites fs),
     inr env_data) /\
    Dict.keys env_data = found_sites fs.
Proof.
  intros Hloads.
  destruct (load_environment_loop_exact school_map []) as (env & Hrun & Hkeys).
  - exact sites_distinct.
  - reflexivity.
  - intros school key f Hitem Hfind.
    apply school_map_items in Hitem as [Hs ->]. eauto.
  - exists env. unfold load_environment_data.
    now rewrite Hrun, school_map_missing, Hkeys, school_map_found.
Qed.

End LoaderExact.

(** X3.  When every located file loads, the loader shows exactly one message per
    site without file, in the order of the enumeration, and the keys of the
    mapping it returns are the sites with a file, in the order of the
    enumeration. *)
Theorem load_environment_data_messages_and_order :
  forall (U : Unicode) (P : Pandas) (fs : FileSystem),
    (forall school file_path,
        In school sites ->
        find_file (iterdir fs) school (py ".csv") = Some file_path ->
        exists df, read_site fs file_path = inr df) ->
    exists env_data,
      load_environment_data fs =
      (map (fun school => school ++ msg_env_not_found) (missing_sites fs),
       inr env_data) /\
      Dict.keys env_data = found_sites fs.
Proof. intros U P fs. apply load_environment_data_exact. Qed.

Lemma fs_complete_loads :
  forall school file_path,
    In school sites ->
    @find_file Hangul.unicode (iterdir fs_complete) school (py ".csv")
    = Some file_path ->
    exists df, @read_site pandas_epoch fs_complete file_path = inr df.
Proof.
  intros school file_path [<- | [<- | [<- | [<- | []]]]] Hfind;
    vm_compute in Hfind; try discriminate;
    injection Hfind as <-; eexists; vm_compute; reflexivity.
Qed.

Lemma load_environment_data_messages_and_order_witness :
  exists env_data,
    @load_environment_data Hangul.unicode pandas_epoch fs_complete =
    ([ara ++ msg_env_not_found; dongsan ++ msg_env_not_found], inr env_data) /\
    Dict.keys env_data = [songdo; haneul].
Proof.
  exact (load_environment_data_messages_and_order
           Hangul.unicode pandas_epoch fs_complete fs_complete_loads).
Defined.

(** ** The start of the script *)

Lemma start_unfold {U : Unicode} {P : Pandas} (fs : FileSystem) :
  start fs =
  let (shown1, r1) := load_environment_data fs in
  match r1 with
  | inl e => (shown1, inl e)
  | inr env_data =>
      let (shown2, r2) := load_growth_data fs in
      match r2 with
      | inl e => (shown1 ++ shown2, inl e)
      | inr growth_data =>
          (shown1 ++ shown2,
           inr (if stops env_data growth_data then Stopped
                else Loaded env_data growth_data))
      end
  end.
Proof.
  unfold start, bind.
  destruct (load_environment_data fs) as [shown1 [e|env_data]]; [reflexivity|].
  destruct (load_growth_data fs) as [shown2 [e|growth_data]]; [reflexivity|].
  destruct (stops env_data growth_data); simpl; now rewrite app_nil_r.
Qed.

Lemma read_sheets_silent (fs : FileSystem) (xlsx_file : str)
    (sheets : list str) (growth_data : Dict.t DataFrame) :
  fst (read_sheets fs xlsx_file sheets growth_data) = [].
Proof.
  revert growth_data. induction sheets as [|sheet rest IH]; intros growth_data;
    [reflexivity|].
  cbn [read_sheets]. unfold bind, lift.
  destruct (read_excel fs xlsx_file sheet) as [e|df]; [reflexivity|].
  specialize (IH (Dict.set growth_data sheet df)).
  now destruct (read_sheets fs xlsx_file rest (Dict.set growth_data sheet df)).
Qed.

(** The growth loader shows a message only when it returns the empty
    mapping. *)
Lemma load_growth_data_silent (fs : FileSystem) (shown : list str)
    (growth_data : Dict.t DataFrame) :
  load_growth_data fs = (shown, inr growth_data) ->
  growth_data <> [] -> shown = [].
Proof.
  unfold load_growth_data.
  destruct (first_xlsx (iterdir fs)) as [xlsx_file|].
  - unfold bind, lift.
    destruct (sheet_names fs xlsx_file) as [e|sheets]; [discriminate|].
    pose proof (read_sheets_silent fs xlsx_file sheets []) as Hs.
    destruct (read_sheets fs xlsx_file sheets []) as [shown' r].
    simpl in Hs. subst shown'. now intros [= <- _].
  - simpl. intros [= _ <-]. contradiction.
Qed.

Lemma start_loaded_inv {U : Unicode} {P : Pandas} (fs : FileSystem)
    (shown : list str) (env_data growth_data : Dict.t DataFrame) :
  start fs = (shown, inr (Loaded env_data growth_data)) ->
  load_environment_data fs = (shown, inr env_data) /\
  load_growth_data fs = ([], inr growth_data) /\
  env_data <> [] /\ growth_data <> [].
Proof.
  rewrite start_unfold.
  destruct (load_environment_data fs) as [shown1 [e|env]]; [discriminate|].
  destruct (load_growth_data fs) as [shown2 [e|growth]] eqn:Hg; [discriminate|].
  destruct (stops env growth) eqn:Hstop; [discriminate|].
  intros [= <- <- <-].
  unfold stops in Hstop. apply orb_false_iff in Hstop as [He Hgr].
  assert (Hne : growth <> []) by (intros ->; discriminate).
  assert (shown2 = []) by (eapply load_growth_data_silent; eauto).
  subst shown2. rewrite app_nil_r.
  repeat split; try assumption. intros ->. discriminate.
Qed.

(** X5.  When the script goes on to the tabs, both loaders have returned a
    mapping that is not empty, and the only messages shown are those of the
    environment loader: the growth loader has shown none. *)
Theorem start_loaded :
  forall (U : Unicode) (P : Pandas) (fs : FileSystem) (shown : list str)
         (env_data growth_data : Dict.t DataFrame),
    start fs = (shown, inr (Loaded env_data growth_data)) ->
    load_environment_data fs = (shown, inr env_data) /\
    load_growth_data fs = ([], inr growth_data) /\
    env_data <> [] /\ growth_data <> [].
Proof. intros U P fs. apply start_loaded_inv. Qed.

Lemma start_loaded_witness :
  @load_environment_data Hangul.unicode pandas_epoch fs_complete =
  ([ara ++ msg_env_not_found; dongsan ++ msg_env_not_found],
   inr [(songdo, env_two_records); (haneul, env_two_records)]) /\
  load_growth_data fs_complete =
  ([], inr [(songdo, sheet_songdo); (haneul, sheet_haneul)]) /\
  [(songdo, env_two_records); (haneul, env_two_records)] <> [] /\
  [(songdo, sheet_songdo); (haneul, sheet_haneul)] <> [].
Proof.
  apply (start_loaded Hangul.unicode pandas_epoch fs_complete).
  vm_compute. reflexivity.
Defined.

(** X4.  When no file is found for any site, the loader shows the four messages
    and returns the empty mapping, and the script does not go on to the
    tabs: whatever the growth loader returns, it stops. *)
Theorem load_environment_data_no_csv :
  forall (U : Unicode) (P : Pandas) (fs : FileSystem),
    (forall school, In school sites ->
                    find_file (iterdir fs) school (py ".csv") = None) ->
    load_environment_data fs =
    (map (fun school => school ++ msg_env_not_found) sites, inr []) /\
    (forall shown startup, start fs = (shown, inr startup) -> startup = Stopped).
Proof.
  intros U P fs Hnone.
  destruct (load_environment_data_exact fs) as (env & Hrun & Hkeys).
  { intros school f Hs Hfind. rewrite (Hnone school Hs) in Hfind. discriminate. }
  assert (Hmissing : missing_sites fs = sites).
  { unfold missing_sites, sites, school_map. cbn [Dict.keys map filter fst].
    rewrite !Hnone by (unfold sites, school_map; simpl; tauto). reflexivity. }
  assert (Hfound : found_sites fs = []).
  { unfold found_sites, sites, school_map. cbn [Dict.keys map filter fst].
    rewrite !Hnone by (unfold sites, school_map; simpl; tauto). reflexivity. }
  rewrite Hmissing in Hrun. rewrite Hfound in Hkeys.
  assert (env = []) by (destruct env; [reflexivity | discriminate]). subst env.
  split; [exact Hrun|].
  intros shown startup. rewrite start_unfold, Hrun.
  destruct (load_growth_data fs) as [shown2 [e|growth]]; [discriminate|].
  now intros [= _ <-].
Qed.

Lemma load_environment_data_no_csv_witness :
  @load_environment_data Hangul.unicode pandas_epoch fs_broken_sheet =
  (map (fun school => school ++ msg_env_not_found) sites, inr []) /\
  (forall shown startup,
      @start Hangul.unicode pandas_epoch fs_broken_sheet = (shown, inr startup) ->
      startup = Stopped).
Proof.
  apply (load_environment_data_no_csv Hangul.unicode pandas_epoch fs_broken_sheet).
  intros school [<- | [<- | [<- | [<- | []]]]]; reflexivity.
Defined.

(** ** The growth loader *)

Lemma read_sheets_exact (fs : FileSystem) (xlsx_file : str)
    (table : str -> DataFrame) (sheets : list str)
    (growth_data : Dict.t DataFrame) :
  NoDup sheets ->
  (forall sheet, In sheet sheets -> Dict.get growth_data sheet = None) ->
  (forall sheet, In sheet sheets ->
                 read_excel fs xlsx_file sheet = inr (table sheet)) ->
  read_sheets fs xlsx_file sheets growth_data =
  ([], inr (growth_data ++ map (fun sheet => (sheet, table sheet)) sheets)).
Proof.
  revert growth_data. induction sheets as [|sheet rest IH];
    intros growth_data Hnodup Hfresh Hread.
  - simpl. now rewrite app_nil_r.
  - inversion Hnodup as [|? ? Hnew Hnodup']; subst.
    cbn [read_sheets]. rewrite (Hread sheet) by now left.
    unfold bind, lift. rewrite IH.
    + cbn [app map].
      assert (Hset : Dict.set growth_data sheet (table sheet) =
                     growth_data ++ [(sheet, table sheet)]).
      { assert (Hs := Hfresh sheet (or_introl eq_refl)). clear - Hs.
        induction growth_data as [|[k v] d IHd]; [reflexivity|].
        cbn [Dict.get Dict.set] in *. destruct (Str.eqb k sheet); [discriminate|].
        cbn [app]. f_equal. now apply IHd. }
      now rewrite Hset, <- app_assoc.
    + exact Hnodup'.
    + intros sh Hin. rewrite dict_get_set_other.
      * apply Hfresh. now right.
      * intros ->. contradiction.
    + intros sh Hin. apply Hread. now right.
Qed.

(** X7.  The growth loader opens the first entry of extension [.xlsx] and no
    other; when its sheets (their names distinct) can all be read, it shows
    no message and returns the tables of the sheets under the sheet names
    as they are, in the order of the workbook. *)
Theorem load_growth_data_sheets :
  forall (fs : FileSystem) (xlsx_file : str) (sheets : list str)
         (table : str -> DataFrame),
    first_xlsx (iterdir fs) = Some xlsx_file ->
    sheet_names fs xlsx_file = inr sheets ->
    NoDup sheets ->
    (forall sheet, In sheet sheets ->
                   read_excel fs xlsx_file sheet = inr (table sheet)) ->
    load_growth_data fs =
    ([], inr (map (fun sheet => (sheet, table sheet)) sheets)).
Proof.
  intros fs xlsx_file sheets table Hfirst Hnames Hnodup Hread.
  unfold load_growth_data. rewrite Hfirst. unfold bind, lift. rewrite Hnames.
  rewrite (read_sheets_exact fs xlsx_file table); auto.
Qed.

Lemma load_growth_data_sheets_witness :
  load_growth_data fs_complete =
  ([], inr (map (fun sheet =>
                   (sheet, if Str.eqb sheet songdo then sheet_songdo
                           else sheet_haneul))
                [songdo; haneul])).
Proof.
  apply (load_growth_data_sheets fs_complete (py "growth.xlsx")).
  - reflexivity.
  - reflexivity.
  - repeat constructor; simpl; intuition discriminate.
  - intros sheet [<- | [<- | []]]; reflexivity.
Defined.

Lemma read_sheets_raises (fs : FileSystem) (xlsx_file : str)
    (sheets : list str) (growth_data : Dict.t DataFrame) (sheet : str) (e : exn) :
  In sheet sheets ->
  read_excel fs xlsx_file sheet = inl e ->
  exists e', read_sheets fs xlsx_file sheets growth_data = ([], inl e').
Proof.
  intros Hin Hread. revert growth_data.
  induction sheets as [|sh rest IH]; intros growth_data; [contradiction|].
  cbn [read_sheets]. unfold bind, lift.
  destruct (read_excel fs xlsx_file sh) as [e0|df] eqn:Hsh; [now exists e0|].
  destruct Hin as [-> | Hin]; [congruence|].
  destruct (IH Hin (Dict.set growth_data sh df)) as [e' He'].
  exists e'. now rewrite He'.
Qed.

(** X8.  A workbook that cannot be opened, or one sheet of it that cannot be
    read, is not skipped: the growth loader ends with an exception, shows
    no message and returns no mapping, the sheets read before are lost. *)
Theorem load_growth_data_read_error :
  forall (fs : FileSystem) (xlsx_file : str) (e : exn),
    first_xlsx (iterdir fs) = Some xlsx_file ->
    sheet_names fs xlsx_file = inl e \/
    (exists sheets sheet,
        sheet_names fs xlsx_file = inr sheets /\
        In sheet sheets /\ read_excel fs xlsx_file sheet = inl e) ->
    exists e', load_growth_data fs = ([], inl e').
Proof.
  intros fs xlsx_file e Hfirst Hfail.
  unfold load_growth_data. rewrite Hfirst. unfold bind, lift.
  destruct Hfail as [Hopen | (sheets & sheet & Hnames & Hin & Hread)].
  - rewrite Hopen. now exists e.
  - rewrite Hnames.
    destruct (read_sheets_raises fs xlsx_file sheets [] sheet e Hin Hread)
      as [e' He'].
    exists e'. now rewrite He'.
Qed.

Lemma load_growth_data_read_error_witness :
  exists e', load_growth_data fs_broken_sheet = ([], inl e').
Proof.
  apply (load_growth_data_read_error fs_broken_sheet (py "growth.xlsx") ParserError).
  - reflexivity.
  - right. exists [songdo; haneul], haneul.
    split; [reflexivity|]. split; [right; left|]; reflexivity.
Defined.

(** ** The growth summaries *)

Lemma summary_loop_spec (items : list (str * DataFrame))
    (summary_rows : list SummaryRow) (total_count : nat) :
  summary_loop items summary_rows total_count =
  (summary_rows ++
     map (fun item => {| s_school := fst item;
                         s_ec := Dict.get ec_target (fst item);
                         s_count := len (snd item) |}) items,
   (total_count + list_sum (map (fun item => len (snd item)) items))%nat).
Proof.
  revert summary_rows total_count.
  induction items as [|[school df] rest IH]; intros summary_rows total_count.
  - simpl. now rewrite app_nil_r, Nat.add_0_r.
  - cbn [summary_loop]. rewrite IH. cbn [map list_sum fold_right fst snd].
    now rewrite <- app_assoc, Nat.add_assoc.
Qed.

(** X11.  The overview table has one row per sheet of the workbook, in their
    order, with the target EC of the sheet name when it is a site, and the
    total shown beside it is the sum of the counts of the rows. *)
Theorem summary_rows_and_total :
  forall growth_data : Dict.t DataFrame,
    fst (summary growth_data) =
    map (fun item => {| s_school := fst item;
                        s_ec := Dict.get ec_target (fst item);
                        s_count := len (snd item) |}) growth_data /\
    snd (summary growth_data) = list_sum (map s_count (fst (summary growth_data))).
Proof.
  intros growth_data. unfold summary. rewrite summary_loop_spec.
  cbn [fst snd app Nat.add]. split; [reflexivity|].
  rewrite map_map. reflexivity.
Qed.

Lemma ec_summary_inv (items : list (str * DataFrame)) (rows : list GrowthRow) :
  ec_summary items = inr rows ->
  map summary_of rows =
  map (fun item => {| s_school := fst item;
                      s_ec := Dict.get ec_target (fst item);
                      s_count := len (snd item) |}) items.
Proof.
  revert rows. induction items as [|[school df] rest IH]; intros rows.
  - intros [= <-]. reflexivity.
  - cbn [ec_summary].
    destruct (rbind (getitem df col_fresh_weight) (fun s => mean s))
      as [e|weight]; [discriminate|].
    cbn [rbind]. destruct (ec_summary rest) as [e|rows']; [discriminate|].
    cbn [rbind]. intros [= <-]. cbn [map fst snd]. f_equal. now apply IH.
Qed.

(** X12.  When the growth summary of tab 3 can be computed, it agrees with the
    overview table of tab 1 on the site, the target EC and the number of
    plants of every row, and its counts add up to the total of tab 1. *)
Theorem ec_summary_agrees_with_summary :
  forall (growth_data : Dict.t DataFrame) (rows : list GrowthRow),
    ec_summary growth_data = inr rows ->
    map summary_of rows = fst (summary growth_data) /\
    list_sum (map g_count rows) = snd (summary growth_data).
Proof.
  intros growth_data rows Hrows. apply ec_summary_inv in Hrows.
  unfold summary. rewrite summary_loop_spec. cbn [fst snd app Nat.add].
  split; [exact Hrows|].
  change g_count with (fun row => s_count (summary_of row)).
  rewrite <- (map_map summary_of s_count), Hrows, map_map. reflexivity.
Qed.

Lemma ec_summary_agrees_with_summary_witness :
  map summary_of
    [{| g_school := songdo; g_ec := Some 1%Q;
        g_mean_weight := Num ((0 + 1 + 2) / inject_Z 2)%Q; g_count := 2 |};
     {| g_school := haneul; g_ec := Some 2%Q;
        g_mean_weight := Num ((0 + (35 # 10)) / inject_Z 1)%Q; g_count := 1 |}]
  = fst (summary [(songdo, sheet_songdo); (haneul, sheet_haneul)]) /\
  list_sum [2; 1]%nat
  = snd (summary [(songdo, sheet_songdo); (haneul, sheet_haneul)]).
Proof.
  apply (ec_summary_agrees_with_summary
           [(songdo, sheet_songdo); (haneul, sheet_haneul)]).
  reflexivity.
Defined.

Lemma ec_summary_step (school : str) (df : DataFrame)
    (rest : list (str * DataFrame)) (s : Series) (m : float) :
  getitem df col_fresh_weight = inr s -> mean s = inr m ->
  ec_summary ((school, df) :: rest) =
  (rows <-? ec_summary rest ;;
   inr ({| g_school := school; g_ec := Dict.get ec_target school;
           g_mean_weight := m; g_count := len df |} :: rows)).
Proof. intros Hs Hm. cbn [ec_summary]. rewrite Hs. cbn [rbind]. now rewrite Hm. Qed.


Lemma numeric_growth_sheet_songdo : numeric_growth sheet_songdo.
Proof.
  eexists. split; [reflexivity|]. intros c [<- | [<- | []]]; eexists; reflexivity.
Qed.


(** A sheet name that spells a site with conjoining jamo is kept as it is
    and finds no target EC. *)
Example ec_summary_sheet_name_verbatim :
  exists weight,
    ec_summary [(songdo_nfd, sheet_songdo)] =
    inr [{| g_school := songdo_nfd; g_ec := None; g_mean_weight := weight;
            g_count := 2 |}].
Proof. eexists. reflexivity. Qed.

(** X14.  A sheet without the fresh-weight column, after sheets that have it,
    makes the growth summary end with the KeyError of that column: no
    summary is produced, for any sheet. *)
Theorem ec_summary_missing_column :
  forall (before after : list (str * DataFrame)) (school : str) (df : DataFrame),
    (forall s d, In (s, d) before -> numeric_growth d) ->
    Dict.get (columns df) col_fresh_weight = None ->
    ec_summary (before ++ (school, df) :: after) =
    inl (KeyError col_fresh_weight).
Proof.
  intros before after school df Hbefore Hmissing.
  induction before as [|[s d] before IH].
  - cbn [app ec_summary]. unfold getitem, Dict.getitem. now rewrite Hmissing.
  - destruct (Hbefore s d (or_introl eq_refl)) as (col & Hcol & Hn).
    destruct (mean_numeric col Hn) as (m & Hm & _).
    cbn [app]. rewrite (ec_summary_step s d _ col m Hcol Hm), IH; [reflexivity|].
    intros s' d' Hin. apply (Hbefore s'). now right.
Qed.

Lemma ec_summary_missing_column_witness :
  ec_summary ([(songdo, sheet_songdo)] ++ (haneul, sheet_unlabelled) :: [])
  = inl (KeyError col_fresh_weight).
Proof.
  apply (ec_summary_missing_column [(songdo, sheet_songdo)] [] haneul
           sheet_unlabelled).
  - intros s d [[= <- <-] | []]. exact numeric_growth_sheet_songdo.
  - reflexivity.
Defined.

(** ** The best row, in the script *)

Lemma best_row_fault (rows : list GrowthRow) (e : exn) :
  rows <> [] -> best_row rows = inl e -> e = ArgmaxAllNaN.
Proof.
  intros Hne. unfold best_row.
  destruct (idxmax (map g_mean_weight rows)) as [e0|i] eqn:Hi; cbn [rbind].
  - intros [= <-]. unfold idxmax in Hi.
    destruct (map g_mean_weight rows) as [|x xs] eqn:Hm.
    + apply map_eq_nil in Hm. contradiction.
    + destruct (nanargmax None 0 (x :: xs)) as [[k w]|]; [discriminate|].
      now injection Hi as <-.
  - destruct (idxmax_first_maximum _ _ Hi) as (w & Hnth & _).
    rewrite nth_error_map in Hnth. unfold loc.
    destruct (nth_error rows i); discriminate.
Qed.

(** X6.  Once the script has gone on to the tabs, the growth summary, when it
    can be computed, is not empty, and the only fault the best row can end
    with is that of means that are all NaN: the fault of the empty summary
    is ruled out by the stop of lines 95-96. *)
Theorem best_row_after_start :
  forall (U : Unicode) (P : Pandas) (fs : FileSystem) (shown : list str)
         (env_data growth_data : Dict.t DataFrame) (rows : list GrowthRow),
    start fs = (shown, inr (Loaded env_data growth_data)) ->
    ec_summary growth_data = inr rows ->
    rows <> [] /\ (forall e, best_row rows = inl e -> e = ArgmaxAllNaN).
Proof.
  intros U P fs shown env_data growth_data rows Hstart Hrows.
  apply start_loaded_inv in Hstart as (_ & _ & _ & Hne).
  assert (Hrs : rows <> []).
  { intros ->. apply ec_summary_inv in Hrows.
    destruct growth_data; [contradiction | discriminate]. }
  split; [exact Hrs | intros e; now apply best_row_fault].
Qed.

Lemma best_row_after_start_witness :
  [{| g_school := songdo; g_ec := Some 1%Q;
      g_mean_weight := Num ((0 + 1 + 2) / inject_Z 2)%Q; g_count := 2 |};
   {| g_school := haneul; g_ec := Some 2%Q;
      g_mean_weight := Num ((0 + (35 # 10)) / inject_Z 1)%Q; g_count := 1 |}]
  <> [] /\
  (forall e,
      best_row
        [{| g_school := songdo; g_ec := Some 1%Q;
            g_mean_weight := Num ((0 + 1 + 2) / inject_Z 2)%Q; g_count := 2 |};
         {| g_school := haneul; g_ec := Some 2%Q;
            g_mean_weight := Num ((0 + (35 # 10)) / inject_Z 1)%Q;
            g_count := 1 |}] = inl e ->
      e = ArgmaxAllNaN).
Proof.
  apply (best_row_after_start Hangul.unicode pandas_epoch fs_complete
           [ara ++ msg_env_not_found; dongsan ++ msg_env_not_found]
           [(songdo, env_two_records); (haneul, env_two_records)]
           [(songdo, sheet_songdo); (haneul, sheet_haneul)]).
  - vm_compute. reflexivity.
  - reflexivity.
Defined.

(** ** The environment tab *)

Lemma site_is_not_all (school : str) :
  In school sites -> Str.eqb school option_all = false.
Proof. intros [<- | [<- | [<- | [<- | []]]]]; reflexivity. Qed.

Lemma site_has_target (school : str) :
  In school sites -> exists y, Dict.getitem ec_target school = inr y.
Proof. intros [<- | [<- | [<- | [<- | []]]]]; eexists; reflexivity. Qed.

Lemma loaded_key_is_site {U : Unicode} {P : Pandas} (fs : FileSystem)
    (shown : list str) (env_data : Dict.t DataFrame) (school : str)
    (df : DataFrame) :
  load_environment_data fs = (shown, inr env_data) ->
  Dict.get env_data school = Some df ->
  In school sites /\
  exists file_path, find_file (iterdir fs) school (py ".csv") = Some file_path.
Proof.
  intros Hrun Hget.
  destruct (load_environment_loop_origin fs _ _ _ _ _ _ Hrun Hget)
    as [(key & f & Hitem & Hfind & _) | Hold]; [|discriminate].
  apply school_map_items in Hitem as [Hs ->]. split; [exact Hs | now exists f].
Qed.

(** X9.  The sidebar offers the four sites whatever was loaded: for a site whose
    file was not found, the choice of that site makes the environment tab
    end with the KeyError of its name. *)
Theorem avg_env_site_not_loaded :
  forall (U : Unicode) (P : Pandas) (fs : FileSystem) (shown : list str)
         (env_data : Dict.t DataFrame) (missing : str),
    In missing sites ->
    find_file (iterdir fs) missing (py ".csv") = None ->
    load_environment_data fs = (shown, inr env_data) ->
    avg_env env_data (selected_schools env_data missing) = inl (KeyError missing).
Proof.
  intros U P fs shown env_data missing Hsite Hfind Hrun.
  unfold selected_schools. rewrite (site_is_not_all missing Hsite).
  cbn [avg_env]. unfold Dict.getitem.
  destruct (Dict.get env_data missing) as [df|] eqn:Hget; [|reflexivity].
  destruct (loaded_key_is_site fs _ _ _ _ Hrun Hget) as (_ & f & Hf). congruence.
Qed.

Lemma avg_env_site_not_loaded_witness :
  avg_env [(songdo, env_two_records); (haneul, env_two_records)]
    (selected_schools [(songdo, env_two_records); (haneul, env_two_records)] ara)
  = inl (KeyError ara).
Proof.
  apply (avg_env_site_not_loaded Hangul.unicode pandas_epoch fs_complete
           [ara ++ msg_env_not_found; dongsan ++ msg_env_not_found]).
  - right. right. left. reflexivity.
  - reflexivity.
  - vm_compute. reflexivity.
Defined.

Lemma avg_env_schools (env_data : Dict.t DataFrame) (selected : list str)
    (rows : list EnvRow) :
  avg_env env_data selected = inr rows -> map env_school rows = selected.
Proof.
  revert rows. induction selected as [|school rest IH]; intros rows.
  - intros [= <-]. reflexivity.
  - cbn [avg_env].
    destruct (Dict.getitem env_data school) as [e|df]; [discriminate|].
    cbn [rbind].
    destruct (rbind (getitem df (py "temperature")) (fun s => mean s))
      as [e|t]; [discriminate|]. cbn [rbind].
    destruct (rbind (getitem df (py "humidity")) (fun s => mean s))
      as [e|h]; [discriminate|]. cbn [rbind].
    destruct (rbind (getitem df (py "ph")) (fun s => mean s))
      as [e|p]; [discriminate|]. cbn [rbind].
    destruct (rbind (getitem df (py "ec")) (fun s => mean s))
      as [e|c]; [discriminate|]. cbn [rbind].
    destruct (avg_env env_data rest) as [e|rows']; [discriminate|].
    cbn [rbind]. intros [= <-]. cbn [map env_school]. f_equal. now apply IH.
Qed.

Lemma target_ec_sites (rows : list EnvRow) :
  (forall row, In row rows -> In (env_school row) sites) ->
  exists ys, target_ec rows = inr ys /\ List.length ys = List.length rows.
Proof.
  induction rows as [|row rest IH]; intros Hsites.
  - now exists [].
  - destruct IH as (ys & Hys & Hlen); [intros r Hr; apply Hsites; now right|].
    destruct (site_has_target (env_school row)) as [y Hy];
      [apply Hsites; now left|].
    exists (y :: ys). cbn [target_ec]. rewrite Hy. cbn [rbind]. rewrite Hys.
    cbn [rbind]. split; [reflexivity | simpl; now rewrite Hlen].
Qed.

(** X10.  The bars of the target EC are drawn by indexing [ec_target] with the
    sites of the environment means.  For a mapping returned by the loader
    and any choice of the sidebar, this lookup never raises: every site
    with means has a target EC, one bar per row. *)
Theorem target_ec_defined :
  forall (U : Unicode) (P : Pandas) (fs : FileSystem) (shown : list str)
         (env_data : Dict.t DataFrame) (school_option : str)
         (rows : list EnvRow),
    load_environment_data fs = (shown, inr env_data) ->
    school_option = option_all \/ In school_option sites ->
    avg_env env_data (selected_schools env_data school_option) = inr rows ->
    exists ys, target_ec rows = inr ys /\ List.length ys = List.length rows.
Proof.
  intros U P fs shown env_data school_option rows Hrun Hoption Hrows.
  apply target_ec_sites. intros row Hrow.
  apply avg_env_schools in Hrows.
  assert (Hsel : In (env_school row) (selected_schools env_data school_option))
    by (rewrite <- Hrows; now apply in_map).
  unfold selected_schools in Hsel.
  destruct (Str.eqb school_option option_all) eqn:Hall.
  - destruct (dict_get_key _ _ Hsel) as [df Hdf].
    now destruct (loaded_key_is_site fs _ _ _ _ Hrun Hdf).
  - destruct Hsel as [<- | []]. destruct Hoption as [-> | Hs]; [|exact Hs].
    now rewrite Str_eqb_refl in Hall.
Qed.

Lemma target_ec_defined_witness :
  exists ys,
    target_ec
      [{| env_school := haneul;
          env_temperature := Num ((0 + (215 # 10) + (225 # 10)) / inject_Z 2)%Q;
          env_humidity := Num ((0 + 60 + 62) / inject_Z 2)%Q;
          env_ph := Num ((0 + (6 # 1) + (65 # 10)) / inject_Z 2)%Q;
          env_ec := Num ((0 + 1 + (12 # 10)) / inject_Z 2)%Q |}] = inr ys /\
    List.length ys = 1%nat.
Proof.
  apply (target_ec_defined Hangul.unicode pandas_epoch fs_complete
           [ara ++ msg_env_not_found; dongsan ++ msg_env_not_found]
           [(songdo, env_two_records); (haneul, env_two_records)] haneul).
  - vm_compute. reflexivity.
  - right. right. left. reflexivity.
  - reflexivity.
Defined.

(** ** Stacked tables *)

Lemma union_labels_In (seen labels : list str) (l : str) :
  In l (union_labels seen labels) <-> In l seen \/ In l labels.
Proof.
  revert seen. induction labels as [|x rest IH]; intros seen.
  - simpl. tauto.
  - cbn [union_labels]. destruct (existsb (Str.eqb x) seen) eqn:Hx.
    + rewrite IH. apply existsb_exists in Hx as (y & Hy & Hxy).
      apply Str_eqb_eq in Hxy. subst y. simpl. intuition (subst; auto).
    + rewrite IH, in_app_iff. simpl. tauto.
Qed.

Lemma dict_get_labels {V : Type} (F : str -> V) (labels : list str) (col : str) :
  In col labels ->
  Dict.get (map (fun c => (c, F c)) labels) col = Some (F col).
Proof.
  induction labels as [|c rest IH]; [contradiction|]. intros Hin.
  cbn [map Dict.get]. destruct (Str.eqb c col) eqn:E.
  - apply Str_eqb_eq in E. now subst c.
  - destruct Hin as [-> | Hin]; [|now apply IH]. now rewrite Str_eqb_refl in E.
Qed.

Lemma dict_get_In {V : Type} (d : Dict.t V) (k : str) (v : V) :
  Dict.get d k = Some v -> In (k, v) d.
Proof.
  induction d as [|[k' v'] d IH]; cbn [Dict.get]; [discriminate|].
  destruct (Str.eqb k' k) eqn:E.
  - apply Str_eqb_eq in E. intros [= ->]. subst. now left.
  - intros H. right. now apply IH.
Qed.

Lemma dict_set_In {V : Type} (d : Dict.t V) (k : str) (v : V) (c : str) (s : V) :
  In (c, s) (Dict.set d k v) -> In (c, s) d \/ s = v.
Proof.
  induction d as [|[k' v'] d IH]; cbn [Dict.set].
  - intros [[= _ <-] | []]. now right.
  - destruct (Str.eqb k' k).
    + intros [[= _ <-] | Hin]; [now right | left; now right].
    + intros [Heq | Hin]; [left; now left|].
      destruct (IH Hin); [left; now right | now right].
Qed.

(** A column of the concatenation: present as soon as one table has it. *)
Lemma getitem_concat (objs : list DataFrame) (col : str) :
  (exists df, In df objs /\ In col (Dict.keys (columns df))) ->
  exists all,
    concat objs = inr all /\
    nrows all = list_sum (map nrows objs) /\
    getitem all col = inr (flat_map (column_or_nan col) objs).
Proof.
  intros (df & Hdf & Hcol). destruct objs as [|o objs]; [contradiction|].
  eexists. split; [reflexivity|]. split; [reflexivity|].
  unfold getitem, Dict.getitem. cbn [columns].
  rewrite (dict_get_labels (fun c => flat_map (column_or_nan c) (o :: objs)));
    [reflexivity|].
  apply union_labels_In. right. apply in_flat_map. now exists df.
Qed.

Lemma column_or_nan_length (col : str) (df : DataFrame) :
  well_formed df -> List.length (column_or_nan col df) = nrows df.
Proof.
  intros Hwf. unfold column_or_nan.
  destruct (Dict.get (columns df) col) as [s|] eqn:Hs.
  - apply dict_get_In in Hs. now apply (Hwf col).
  - apply repeat_length.
Qed.

Lemma concat_well_formed (objs : list DataFrame) (all : DataFrame) :
  (forall df, In df objs -> well_formed df) ->
  concat objs = inr all -> well_formed all.
Proof.
  intros Hwf. destruct objs as [|o objs]; [discriminate|].
  intros [= <-] col s Hin. cbn [columns nrows] in *.
  apply in_map_iff in Hin as (c & [= <- <-] & _).
  change (List.length (flat_map (column_or_nan c) (o :: objs)) =
          list_sum (map nrows (o :: objs))).
  rewrite length_flat_map. f_equal. apply map_ext_in.
  intros df Hdf. now apply column_or_nan_length, Hwf.
Qed.

(** ** The pooled mean of the overview *)




(** ** The table of all sites *)

Lemma assign_school_well_formed (df : DataFrame) (school : str) :
  well_formed df -> well_formed (assign_school df school).
Proof.
  intros Hwf col s Hin. unfold assign_school, setitem in *. cbn [columns nrows] in *.
  apply dict_set_In in Hin as [Hin | ->]; [now apply (Hwf col)|].
  apply repeat_length.
Qed.

Lemma column_or_nan_assign (col : str) (df : DataFrame) (school : str) :
  column_or_nan col (assign_school df school) =
  if Str.eqb col col_school then repeat (Text school) (nrows df)
  else column_or_nan col df.
Proof.
  unfold column_or_nan, assign_school, setitem. cbn [columns nrows].
  destruct (Str.eqb col col_school) eqn:E.
  - apply Str_eqb_eq in E. subst col. now rewrite dict_get_set_same.
  - apply Str_eqb_neq in E. now rewrite dict_get_set_other.
Qed.

Lemma flat_map_tagged (col : str) (data : Dict.t DataFrame) :
  flat_map (column_or_nan col) (tagged data) =
  flat_map (fun item =>
              if Str.eqb col col_school
              then repeat (Text (fst item)) (len (snd item))
              else column_or_nan col (snd item)) data.
Proof.
  induction data as [|[school df] rest IH]; [reflexivity|].
  cbn [tagged map flat_map fst snd]. rewrite column_or_nan_assign.
  f_equal. exact IH.
Qed.

Lemma assign_school_keys (df : DataFrame) (school col : str) :
  col = col_school \/ In col (Dict.keys (columns df)) ->
  In col (Dict.keys (columns (assign_school df school))).
Proof.
  intros Hcol. unfold assign_school, setitem. cbn [columns].
  assert (Hget : exists s,
             Dict.get (Dict.set (columns df) col_school
                         (repeat (Text school) (nrows df))) col = Some s).
  { destruct (Str.eqb col col_school) eqn:E.
    - apply Str_eqb_eq in E. subst col. eexists. apply dict_get_set_same.
    - apply Str_eqb_neq in E. destruct Hcol as [-> | Hin]; [contradiction|].
      destruct (dict_get_key _ _ Hin) as [s Hs]. exists s.
      now rewrite dict_get_set_other. }
  destruct Hget as [s Hs]. apply dict_get_In in Hs.
  change col with (fst (col, s)). now apply in_map.
Qed.

(** X16.  The table of all sites ([merged_df] of tab 3, [full_env] of tab 2)
    holds every row of every table once, in the order of the mapping: its
    number of rows is the sum of theirs (for the growth data, the total of
    tab 1), its column 학교 names the site of each row, every other column
    found in some table stacks the cells of the tables, a table without it
    giving missing values, and every column has one cell per row. *)
Theorem merged_df_rows :
  forall data : Dict.t DataFrame,
    data <> [] ->
    (forall school df, In (school, df) data -> well_formed df) ->
    exists merged,
      merged_df data = inr merged /\
      len merged = list_sum (map (fun item => len (snd item)) data) /\
      len merged = snd (summary data) /\
      getitem merged col_school =
        inr (flat_map (fun item => repeat (Text (fst item)) (len (snd item)))
               data) /\
      (forall col,
          col <> col_school ->
          (exists school df, In (school, df) data /\
                             In col (Dict.keys (columns df))) ->
          getitem merged col =
          inr (flat_map (fun item => column_or_nan col (snd item)) data)) /\
      well_formed merged.
Proof.
  intros data Hne Hwf.
  assert (Hcols : forall col,
             col = col_school \/
             (exists school df, In (school, df) data /\
                                In col (Dict.keys (columns df))) ->
             exists merged,
               merged_df data = inr merged /\
               nrows merged = list_sum (map nrows (tagged data)) /\
               getitem merged col = inr (flat_map (column_or_nan col) (tagged data))).
  { intros col Hcol. apply getitem_concat.
    destruct Hcol as [-> | (school & df & Hin & Hkey)].
    - destruct data as [|[school df] rest]; [contradiction|].
      exists (assign_school df school). split; [now left|].
      apply assign_school_keys. now left.
    - exists (assign_school df school). split.
      + unfold tagged. apply in_map_iff. now exists (school, df).
      + apply assign_school_keys. now right. }
  destruct (Hcols col_school (or_introl eq_refl)) as (merged & Hm & Hn & Hschool).
  assert (Hrows : nrows merged = list_sum (map (fun item => len (snd item)) data)).
  { rewrite Hn. unfold tagged. rewrite map_map. reflexivity. }
  exists merged. split; [exact Hm|]. split; [exact Hrows|]. split.
  { unfold summary. rewrite summary_loop_spec. exact Hrows. }
  split.
  { rewrite Hschool, flat_map_tagged, Str_eqb_refl. reflexivity. }
  split.
  - intros col Hcol Hsome.
    destruct (Hcols col (or_intror Hsome)) as (merged' & Hm' & _ & Hget).
    assert (merged' = merged) by congruence. subst merged'.
    rewrite Hget, flat_map_tagged.
    apply Str_eqb_neq in Hcol. now rewrite Hcol.
  - apply (concat_well_formed (tagged data)); [|exact Hm].
    intros df Hdf. unfold tagged in Hdf.
    apply in_map_iff in Hdf as ([school d] & <- & Hin).
    apply assign_school_well_formed. now apply (Hwf school).
Qed.

Lemma well_formed_sheet_songdo : well_formed sheet_songdo.
Proof. intros col s [[= <- <-] | []]. reflexivity. Qed.

Lemma well_formed_sheet_haneul : well_formed sheet_haneul.
Proof. intros col s [[= <- <-] | []]. reflexivity. Qed.

Lemma merged_df_rows_witness :
  exists merged,
    merged_df [(songdo, sheet_songdo); (haneul, sheet_haneul)] = inr merged /\
    len merged = 3%nat /\
    getitem merged col_school = inr [Text songdo; Text songdo; Text haneul] /\
    getitem merged col_fresh_weight =
    inr [Flt (Num 1); Flt (Num 2); Flt (Num (35 # 10))].
Proof.
  destruct (merged_df_rows [(songdo, sheet_songdo); (haneul, sheet_haneul)])
    as (merged & Hm & Hlen & _ & Hschool & Hother & _).
  - discriminate.
  - intros school df [[= <- <-] | [[= <- <-] | []]].
    + exact well_formed_sheet_songdo.
    + exact well_formed_sheet_haneul.
  - exists merged. split; [exact Hm|]. split; [exact Hlen|].
    split; [exact Hschool|].
    apply (Hother col_fresh_weight); [discriminate|].
    exists songdo, sheet_songdo. split; now left.
Defined.
